(** * Substance.cpp: the animal life-cycle and container engine

    A shallow embedding of [src/Substance.cpp]: the [Animal] class hierarchy,
    the [SortAnimals] comparator, [ContainerBase] and the [Manager] with its
    command handlers, followed by the properties of the engine.

    Conventions.
    - A C++ [int] is a [Z]; arithmetic that can leave the 32-bit range is
      passed through [wrap].  Signed overflow is undefined in C++; the model
      takes the two's complement result, and the theorems that depend on the
      value of an age say in which range it lies.
    - An [Animal*] owned by a container is the animal's value: every animal
      is owned by exactly one container, so no pointer is shared.
    - [cout << ...] appends an [Event] to the list of lines the handler
      returns; the literal text of each line is given with its constructor. *)

From Stdlib Require Import ZArith List String Ascii Bool Lia DecimalString.
From Stdlib Require Import Sorted Permutation.
Import ListNotations.

Local Open Scope Z_scope.

(** ** The C++ [int] *)

Definition INT_MAX : Z := 2147483647.

Definition INT_MIN : Z := -2147483648.

Definition wrap (z : Z) : Z := (z + 2147483648) mod 4294967296 - 2147483648.

(** ** Animals *)

(** The dynamic class of an object of the [Animal] hierarchy. *)
Inductive Class : Type :=
| Fish | Bird | Mouse
| BetterFish | BetterBird | BetterMouse
| Monster.

Record Animal : Type := mkAnimal {
  class : Class;
  name : string;
  daysLived : Z
}.

Definition setDaysLived (a : Animal) (d : Z) : Animal :=
  {| class := class a; name := name a; daysLived := d |}.

Definition incrementDay (a : Animal) : Animal :=
  setDaysLived a (wrap (daysLived a + 1)).

Definition getTypeCode (a : Animal) : string :=
  match class a with
  | Fish => "F" | Bird => "B" | Mouse => "M"
  | BetterFish => "BF" | BetterBird => "BB" | BetterMouse => "BM"
  | Monster => "MONSTER"
  end.

Definition getTypeName (a : Animal) : string :=
  match class a with
  | Fish => "Fish" | Bird => "Bird" | Mouse => "Mouse"
  | BetterFish => "BetterFish" | BetterBird => "BetterBird"
  | BetterMouse => "BetterMouse"
  | Monster => "Monster"
  end.

Definition isNormal (a : Animal) : bool :=
  match class a with Fish | Bird | Mouse => true | _ => false end.

Definition isBetter (a : Animal) : bool :=
  match class a with
  | BetterFish | BetterBird | BetterMouse => true
  | _ => false
  end.

Definition isMonster (a : Animal) : bool :=
  match class a with Monster => true | _ => false end.

(** The constructors the handlers call.  [newBetterFish f] is
    [BetterFish(const Fish &f)]: a copy of [f] whose days are then set to
    [(f.getDaysLived() + 1) / 2], the division truncating as in C++. *)
Definition newBetterFish (f : Animal) : Animal :=
  setDaysLived (mkAnimal BetterFish (name f) (daysLived f))
               (Z.quot (wrap (daysLived f + 1)) 2).

Definition newBetterBird (b : Animal) : Animal :=
  setDaysLived (mkAnimal BetterBird (name b) (daysLived b))
               (Z.quot (wrap (daysLived b + 1)) 2).

Definition newBetterMouse (m : Animal) : Animal :=
  setDaysLived (mkAnimal BetterMouse (name m) (daysLived m))
               (Z.quot (wrap (daysLived m + 1)) 2).

(** [Monster(const Animal &a)] *)
Definition newMonster (a : Animal) : Animal := mkAnimal Monster (name a) 1.

(** ** Output lines *)

Inductive Event : Type :=
| SayName (n : string) (d : Z)        (* My name is <n>, days lived: <d> *)
| HasDied (n : string)                (* <n> has died of old days *)
| IsAttacking (typeName : string)     (* <typeName> is attacking *)
| AnimalNotFound                      (* Animal not found *)
| InvalidSubstanceRemoval             (* Invalid substance removal *)
| CannotApplyInFreedom                (* Substance cannot be applied in freedom *)
| CannotRemoveInFreedom               (* Substance cannot be removed in freedom *)
| CannotAttackInFreedom.              (* Animals cannot attack in Freedom *)

Definition sayName (a : Animal) : Event := SayName (name a) (daysLived a).

(** The text of a line, as [cout] receives it (without the newline). *)
Definition render (e : Event) : string :=
  match e with
  | SayName n d =>
      "My name is " ++ n ++ ", days lived: "
        ++ NilZero.string_of_int (Z.to_int d)
  | HasDied n => n ++ " has died of old days"
  | IsAttacking typeName => typeName ++ " is attacking"
  | AnimalNotFound => "Animal not found"
  | InvalidSubstanceRemoval => "Invalid substance removal"
  | CannotApplyInFreedom => "Substance cannot be applied in freedom"
  | CannotRemoveInFreedom => "Substance cannot be removed in freedom"
  | CannotAttackInFreedom => "Animals cannot attack in Freedom"
  end%string.

(** The lines with which a handler turns a command down. *)
Definition isRejection (e : Event) : bool :=
  match e with
  | AnimalNotFound | InvalidSubstanceRemoval
  | CannotApplyInFreedom | CannotRemoveInFreedom | CannotAttackInFreedom => true
  | _ => false
  end.

(** ** SortAnimals and stable_sort *)

(** [SortAnimals::operator()]: fewer days first, then the smaller name;
    [std::string]'s [<] is the lexicographic order on bytes. *)
Definition SortAnimals (a b : Animal) : bool :=
  if negb (daysLived a =? daysLived b) then daysLived a <? daysLived b
  else String.ltb (name a) (name b).

(** [std::stable_sort] with a comparator [lt]: the sorted rearrangement in
    which elements that [lt] does not separate keep their order.  It is
    computed here by insertion from the right, each element stopping in front
    of the first one that does not precede it; for [SortAnimals] no other
    arrangement meets the two requirements ([ContainerFacts.update_unique]). *)
Section StableSort.
Context {A : Type} (lt : A -> A -> bool).

Fixpoint insert_sorted (x : A) (l : list A) : list A :=
  match l with
  | [] => [x]
  | y :: l' => if lt y x then y :: insert_sorted x l' else x :: l
  end.

Fixpoint stable_sort (l : list A) : list A :=
  match l with
  | [] => []
  | x :: l' => insert_sorted x (stable_sort l')
  end.
End StableSort.

(** [animals.erase(animals.begin() + idx)] for an index in range. *)
Definition erase {A : Type} (idx : nat) (l : list A) : list A :=
  firstn idx l ++ skipn (S idx) l.

(** ** ContainerBase *)

Module ContainerBase.

Definition t : Type := list Animal.

Definition size (animals : t) : Z := Z.of_nat (List.length animals).

Definition update (animals : t) : t := stable_sort SortAnimals animals.

Definition add (animals : t) (animal : Animal) : t :=
  update (animals ++ [animal]).

Definition get (animals : t) (idx : Z) : option Animal :=
  if (idx <? 0) || (idx >=? size animals) then None
  else nth_error animals (Z.to_nat idx).

(** Returns the removed animal and the vector left behind. *)
Definition removeByIndex (animals : t) (idx : Z) : option Animal * t :=
  if (idx <? 0) || (idx >=? size animals) then (None, animals)
  else (nth_error animals (Z.to_nat idx),
        update (erase (Z.to_nat idx) animals)).

(** The first loop of [incrementDays], from index [i] on: the aged
    animals, the indices pushed on [dead], and the lines printed. *)
Fixpoint ageFrom (i : nat) (animals : t) : t * list nat * list Event :=
  match animals with
  | [] => ([], [], [])
  | a :: rest =>
      let a' := incrementDay a in
      let '(rest', dead, out) := ageFrom (S i) rest in
      if isMonster a' && (daysLived a' >? 1)
      then (a' :: rest', i :: dead, HasDied (name a') :: out)
      else if negb (isMonster a') && (daysLived a' >? 10)
      then (a' :: rest', i :: dead, HasDied (name a') :: out)
      else (a' :: rest', dead, out)
  end.

(** The second loop: the recorded indices are erased, last one first. *)
Definition eraseDead (animals : t) (dead : list nat) : t :=
  fold_right erase animals dead.

Definition incrementDays (animals : t) : t * list Event :=
  let '(aged, dead, out) := ageFrom 0 animals in
  (update (eraseDead aged dead), out).

Definition clear (animals : t) : t * list Event :=
  ([], map (fun a => HasDied (name a)) animals).

End ContainerBase.

(** ** Manager *)

Record Manager : Type := mkManager {
  cageBird : ContainerBase.t;
  cageBetterBird : ContainerBase.t;
  cageMouse : ContainerBase.t;
  cageBetterMouse : ContainerBase.t;
  aquariumFish : ContainerBase.t;
  aquariumBetterFish : ContainerBase.t;
  aquariumMouse : ContainerBase.t;
  aquariumBetterMouse : ContainerBase.t;
  freedom : ContainerBase.t
}.

(** The [Manager] of [main] before the first command. *)
Definition emptyManager : Manager := mkManager [] [] [] [] [] [] [] [] [].

(** A non-null [ContainerBase<Animal>*] returned by [pickContainer] points
    to one of the nine members. *)
Inductive ContainerRef : Type :=
| RefCageBird | RefCageBetterBird | RefCageMouse | RefCageBetterMouse
| RefAquariumFish | RefAquariumBetterFish
| RefAquariumMouse | RefAquariumBetterMouse
| RefFreedom.

Definition deref (m : Manager) (r : ContainerRef) : ContainerBase.t :=
  match r with
  | RefCageBird => cageBird m
  | RefCageBetterBird => cageBetterBird m
  | RefCageMouse => cageMouse m
  | RefCageBetterMouse => cageBetterMouse m
  | RefAquariumFish => aquariumFish m
  | RefAquariumBetterFish => aquariumBetterFish m
  | RefAquariumMouse => aquariumMouse m
  | RefAquariumBetterMouse => aquariumBetterMouse m
  | RefFreedom => freedom m
  end.

(** The manager after the container behind [r] has become [c]. *)
Definition assign (m : Manager) (r : ContainerRef) (c : ContainerBase.t)
  : Manager :=
  match r with
  | RefCageBird =>
      mkManager c (cageBetterBird m) (cageMouse m) (cageBetterMouse m)
        (aquariumFish m) (aquariumBetterFish m) (aquariumMouse m)
        (aquariumBetterMouse m) (freedom m)
  | RefCageBetterBird =>
      mkManager (cageBird m) c (cageMouse m) (cageBetterMouse m)
        (aquariumFish m) (aquariumBetterFish m) (aquariumMouse m)
        (aquariumBetterMouse m) (freedom m)
  | RefCageMouse =>
      mkManager (cageBird m) (cageBetterBird m) c (cageBetterMouse m)
        (aquariumFish m) (aquariumBetterFish m) (aquariumMouse m)
        (aquariumBetterMouse m) (freedom m)
  | RefCageBetterMouse =>
      mkManager (cageBird m) (cageBetterBird m) (cageMouse m) c
        (aquariumFish m) (aquariumBetterFish m) (aquariumMouse m)
        (aquariumBetterMouse m) (freedom m)
  | RefAquariumFish =>
      mkManager (cageBird m) (cageBetterBird m) (cageMouse m)
        (cageBetterMouse m) c (aquariumBetterFish m) (aquariumMouse m)
        (aquariumBetterMouse m) (freedom m)
  | RefAquariumBetterFish =>
      mkManager (cageBird m) (cageBetterBird m) (cageMouse m)
        (cageBetterMouse m) (aquariumFish m) c (aquariumMouse m)
        (aquariumBetterMouse m) (freedom m)
  | RefAquariumMouse =>
      mkManager (cageBird m) (cageBetterBird m) (cageMouse m)
        (cageBetterMouse m) (aquariumFish m) (aquariumBetterFish m) c
        (aquariumBetterMouse m) (freedom m)
  | RefAquariumBetterMouse =>
      mkManager (cageBird m) (cageBetterBird m) (cageMouse m)
        (cageBetterMouse m) (aquariumFish m) (aquariumBetterFish m)
        (aquariumMouse m) c (freedom m)
  | RefFreedom =>
      mkManager (cageBird m) (cageBetterBird m) (cageMouse m)
        (cageBetterMouse m) (aquariumFish m) (aquariumBetterFish m)
        (aquariumMouse m) (aquariumBetterMouse m) c
  end.

(** The order in which [doPeriod] visits the containers. *)
Definition periodOrder : list ContainerRef :=
  [RefCageBird; RefCageBetterBird; RefCageMouse; RefCageBetterMouse;
   RefAquariumFish; RefAquariumBetterFish;
   RefAquariumMouse; RefAquariumBetterMouse; RefFreedom].

(** [r.incrementDays()] on the member behind [r], the lines it prints
    appended to those printed so far. *)
Definition incrementDaysAt (st : Manager * list Event) (r : ContainerRef)
  : Manager * list Event :=
  let '(m, out) := st in
  let '(c, lines) := ContainerBase.incrementDays (deref m r) in
  (assign m r c, out ++ lines).

Definition doPeriod (m : Manager) : Manager * list Event :=
  fold_left incrementDaysAt periodOrder (m, []).

Definition pickContainer (cont typeCode : string) : option ContainerRef :=
  if (cont =? "Freedom")%string then Some RefFreedom
  else if (cont =? "Cage")%string then
    if (typeCode =? "B")%string then Some RefCageBird
    else if (typeCode =? "BB")%string then Some RefCageBetterBird
    else if (typeCode =? "M")%string then Some RefCageMouse
    else if (typeCode =? "BM")%string then Some RefCageBetterMouse
    else None
  else if (cont =? "Aquarium")%string then
    if (typeCode =? "F")%string then Some RefAquariumFish
    else if (typeCode =? "BF")%string then Some RefAquariumBetterFish
    else if (typeCode =? "M")%string then Some RefAquariumMouse
    else if (typeCode =? "BM")%string then Some RefAquariumBetterMouse
    else None
  else None.

Definition makeAnimal (type n : string) (d : Z) : option Animal :=
  if (type =? "M")%string then Some (mkAnimal Mouse n d)
  else if (type =? "B")%string then Some (mkAnimal Bird n d)
  else if (type =? "F")%string then Some (mkAnimal Fish n d)
  else if (type =? "BM")%string then Some (mkAnimal BetterMouse n d)
  else if (type =? "BB")%string then Some (mkAnimal BetterBird n d)
  else if (type =? "BF")%string then Some (mkAnimal BetterFish n d)
  else None.

(** [c->add(animal)] on the member behind [r]. *)
Definition addTo (m : Manager) (r : ContainerRef) (animal : Animal) : Manager :=
  assign m r (ContainerBase.add (deref m r) animal).

Definition handleCreate (m : Manager) (type n cont : string) (d : Z)
  : Manager * list Event :=
  match makeAnimal type n d with
  | None => (m, [])
  | Some animal =>
      if (cont =? "Freedom")%string
      then (addTo m RefFreedom animal, [sayName animal])
      else match pickContainer cont type with
           | Some c => (addTo m c animal, [sayName animal])
           | None => (m, [sayName animal])
           end
  end.

Definition handleApplySubstanceFreedom (m : Manager) (pos : Z)
  : Manager * list Event :=
  (m, [CannotApplyInFreedom]).

(** The [new Better...] chain of [handleApplySubstance]; [None] is the
    [nullptr] that [better] keeps when no type code matches. *)
Definition betterOf (oldAnimal : Animal) : option Animal :=
  if (getTypeCode oldAnimal =? "M")%string then Some (newBetterMouse oldAnimal)
  else if (getTypeCode oldAnimal =? "B")%string
  then Some (newBetterBird oldAnimal)
  else if (getTypeCode oldAnimal =? "F")%string
  then Some (newBetterFish oldAnimal)
  else None.

Definition handleApplySubstance (m : Manager) (cont type : string) (pos : Z)
  : Manager * list Event :=
  if (cont =? "Freedom")%string then handleApplySubstanceFreedom m pos
  else
    match pickContainer cont type with
    | None => (m, [AnimalNotFound])
    | Some c =>
        if (pos <? 0) || (pos >=? ContainerBase.size (deref m c))
        then (m, [AnimalNotFound])
        else
          match ContainerBase.get (deref m c) pos with
          | None => (m, [AnimalNotFound])
          | Some oldAnimal =>
              if isMonster oldAnimal then (m, [AnimalNotFound])
              else
                let m1 :=
                  assign m c (snd (ContainerBase.removeByIndex (deref m c) pos))
                in
                if isNormal oldAnimal then
                  match betterOf oldAnimal with
                  | None => (m1, [])
                  | Some better =>
                      match pickContainer cont (getTypeCode better) with
                      | Some newC => (addTo m1 newC better, [])
                      | None => (m1, [])
                      end
                  end
                else if isBetter oldAnimal then
                  let mon := newMonster oldAnimal in
                  let '(emptied, lines) := ContainerBase.clear (deref m1 c) in
                  (addTo (assign m1 c emptied) RefFreedom mon, lines)
                else (m1, [])
          end
    end.

Definition handleRemoveSubstanceFreedom (m : Manager) (pos : Z)
  : Manager * list Event :=
  (m, [CannotRemoveInFreedom]).

(** The [new ...] chain of [handleRemoveSubstance]. *)
Definition normalOf (oldAnimal : Animal) : option Animal :=
  if (getTypeCode oldAnimal =? "BM")%string
  then Some (mkAnimal Mouse (name oldAnimal) (wrap (daysLived oldAnimal * 2)))
  else if (getTypeCode oldAnimal =? "BB")%string
  then Some (mkAnimal Bird (name oldAnimal) (wrap (daysLived oldAnimal * 2)))
  else if (getTypeCode oldAnimal =? "BF")%string
  then Some (mkAnimal Fish (name oldAnimal) (wrap (daysLived oldAnimal * 2)))
  else None.

Definition handleRemoveSubstance (m : Manager) (cont type : string) (pos : Z)
  : Manager * list Event :=
  if (cont =? "Freedom")%string then handleRemoveSubstanceFreedom m pos
  else
    match pickContainer cont type with
    | None => (m, [AnimalNotFound])
    | Some c =>
        if (pos <? 0) || (pos >=? ContainerBase.size (deref m c))
        then (m, [AnimalNotFound])
        else
          match ContainerBase.get (deref m c) pos with
          | None => (m, [InvalidSubstanceRemoval])
          | Some oldAnimal =>
              if negb (isBetter oldAnimal) then (m, [InvalidSubstanceRemoval])
              else
                let m1 :=
                  assign m c (snd (ContainerBase.removeByIndex (deref m c) pos))
                in
                match normalOf oldAnimal with
                | None => (m1, [])
                | Some normal =>
                    match pickContainer cont (getTypeCode normal) with
                    | Some newC => (addTo m1 newC normal, [])
                    | None => (m1, [])
                    end
                end
          end
    end.

Definition handleAttackFreedom (m : Manager) (pos1 pos2 : Z)
  : Manager * list Event :=
  (m, [CannotAttackInFreedom]).

Definition handleAttack (m : Manager) (container type : string) (pos1 pos2 : Z)
  : Manager * list Event :=
  if (container =? "Freedom")%string then handleAttackFreedom m pos1 pos2
  else
    match pickContainer container type with
    | None => (m, [AnimalNotFound])
    | Some c =>
        let sz := ContainerBase.size (deref m c) in
        if (pos1 <? 0) || (pos1 >=? sz) || (pos2 <? 0) || (pos2 >=? sz)
           || (pos1 =? pos2)
        then (m, [AnimalNotFound])
        else
          match ContainerBase.get (deref m c) pos1,
                ContainerBase.get (deref m c) pos2 with
          | Some attacker, Some target =>
              (assign m c (snd (ContainerBase.removeByIndex (deref m c) pos2)),
               [IsAttacking (getTypeName attacker)])
          | _, _ => (m, [AnimalNotFound])
          end
    end.

Definition handleTalkFreedom (m : Manager) (pos : Z) : Manager * list Event :=
  if (pos <? 0) || (pos >=? ContainerBase.size (freedom m))
  then (m, [AnimalNotFound])
  else match ContainerBase.get (freedom m) pos with
       | Some a => (m, [sayName a])
       | None => (m, [AnimalNotFound])
       end.

Definition handleTalk (m : Manager) (container type : string) (pos : Z)
  : Manager * list Event :=
  if (container =? "Freedom")%string then handleTalkFreedom m pos
  else
    match pickContainer container type with
    | None => (m, [AnimalNotFound])
    | Some c =>
        if (pos <? 0) || (pos >=? ContainerBase.size (deref m c))
        then (m, [AnimalNotFound])
        else match ContainerBase.get (deref m c) pos with
             | None => (m, [AnimalNotFound])
             | Some animal => (m, [sayName animal])
             end
    end.

(** ** The command loop *)

(** The calls [main] makes on the manager, one per accepted input line. *)
Inductive Command : Type :=
| CREATE (type n container : string) (d : Z)
| APPLY_SUBSTANCE_FREEDOM (pos : Z)
| APPLY_SUBSTANCE (container type : string) (pos : Z)
| REMOVE_SUBSTANCE_FREEDOM (pos : Z)
| REMOVE_SUBSTANCE (container type : string) (pos : Z)
| ATTACK_FREEDOM (p1 p2 : Z)
| ATTACK (container type : string) (p1 p2 : Z)
| TALK_FREEDOM (pos : Z)
| TALK (container type : string) (pos : Z)
| PERIOD.

Definition exec (m : Manager) (c : Command) : Manager * list Event :=
  match c with
  | CREATE type n container d => handleCreate m type n container d
  | APPLY_SUBSTANCE_FREEDOM pos => handleApplySubstanceFreedom m pos
  | APPLY_SUBSTANCE container type pos =>
      handleApplySubstance m container type pos
  | REMOVE_SUBSTANCE_FREEDOM pos => handleRemoveSubstanceFreedom m pos
  | REMOVE_SUBSTANCE container type pos =>
      handleRemoveSubstance m container type pos
  | ATTACK_FREEDOM p1 p2 => handleAttackFreedom m p1 p2
  | ATTACK container type p1 p2 => handleAttack m container type p1 p2
  | TALK_FREEDOM pos => handleTalkFreedom m pos
  | TALK container type pos => handleTalk m container type pos
  | PERIOD => doPeriod m
  end.

(** The manager after a sequence of commands, starting from [m]. *)
Definition run (m : Manager) (cs : list Command) : Manager :=
  fold_left (fun m c => fst (exec m c)) cs m.

(** The lines printed by a sequence of commands, starting from [m]. *)
Fixpoint output (m : Manager) (cs : list Command) : list Event :=
  match cs with
  | [] => []
  | c :: cs' => snd (exec m c) ++ output (fst (exec m c)) cs'
  end.

(** ** main *)

(** [std::isspace] in the "C" locale: the blank and the characters 9 to 13. *)
Definition isspace (c : ascii) : bool :=
  let n := nat_of_ascii c in
  (n =? 32)%nat || ((9 <=? n)%nat && (n <=? 13)%nat).

(** [while(ss >> w) tk.push_back(w)]: the maximal runs of characters that
    are not white space, [w] being the run read so far. *)
Fixpoint tokensFrom (line : string) (w : string) : list string :=
  match line with
  | EmptyString => match w with EmptyString => [] | _ => [w] end
  | String c rest =>
      if isspace c
      then match w with
           | EmptyString => tokensFrom rest EmptyString
           | _ => w :: tokensFrom rest EmptyString
           end
      else tokensFrom rest (w ++ String c EmptyString)%string
  end.

Definition tokens (line : string) : list string := tokensFrom line EmptyString.

Definition digitValue (c : ascii) : option Z :=
  let n := nat_of_ascii c in
  if (48 <=? n)%nat && (n <=? 57)%nat then Some (Z.of_nat (n - 48)) else None.

(** The value of the longest prefix of decimal digits, [acc] being the
    value of the digits read so far and [seen] telling whether there are
    any. *)
Fixpoint digitsValue (s : string) (acc : Z) (seen : bool) : option Z :=
  match s with
  | EmptyString => if seen then Some acc else None
  | String c rest =>
      match digitValue c with
      | Some v => digitsValue rest (10 * acc + v) true
      | None => if seen then Some acc else None
      end
  end.

(** [std::stoi] on a token (which has no leading white space): an optional
    sign, then the longest run of digits, whatever follows being left
    unread.  [None] is the exception thrown when there is no digit
    ([invalid_argument]) or when the value is no [int] ([out_of_range]). *)
Definition stoi (s : string) : option Z :=
  let '(negative, digits) :=
    match s with
    | String "-"%char rest => (true, rest)
    | String "+"%char rest => (false, rest)
    | _ => (false, s)
    end in
  match digitsValue digits 0 false with
  | None => None
  | Some v =>
      let z := if negative then - v else v in
      if (INT_MIN <=? z) && (z <=? INT_MAX) then Some z else None
  end.

(** What [main] does with the tokens of a line: nothing, a call of a
    handler, or a call of [stoi] that throws. *)
Inductive Parsed : Type :=
| Ignored
| Thrown
| Call (c : Command).

(** [tk[i]], only used below the size of [tk]. *)
Definition tokenAt (tk : list string) (i : nat) : string :=
  nth i tk EmptyString.

(** A handler called with one parsed index. *)
Definition withIndex (s : string) (k : Z -> Command) : Parsed :=
  match stoi s with
  | Some pos => Call (k pos)
  | None => Thrown
  end.

(** A handler called with two parsed indices, the first parsed first. *)
Definition withIndices (s1 s2 : string) (k : Z -> Z -> Command) : Parsed :=
  match stoi s1 with
  | Some p1 =>
      match stoi s2 with
      | Some p2 => Call (k p1 p2)
      | None => Thrown
      end
  | None => Thrown
  end.

Definition dispatch (tk : list string) : Parsed :=
  match tk with
  | [] => Ignored
  | cmd :: _ =>
      let size := List.length tk in
      if (cmd =? "CREATE")%string then
        if (size <? 6)%nat then Ignored
        else withIndex (tokenAt tk 5)
               (CREATE (tokenAt tk 1) (tokenAt tk 2) (tokenAt tk 4))
      else if (cmd =? "APPLY_SUBSTANCE")%string then
        if (size =? 3)%nat && (tokenAt tk 1 =? "Freedom")%string
        then withIndex (tokenAt tk 2) APPLY_SUBSTANCE_FREEDOM
        else if (4 <=? size)%nat
        then withIndex (tokenAt tk 3)
               (APPLY_SUBSTANCE (tokenAt tk 1) (tokenAt tk 2))
        else Ignored
      else if (cmd =? "REMOVE_SUBSTANCE")%string then
        if (size =? 3)%nat && (tokenAt tk 1 =? "Freedom")%string
        then withIndex (tokenAt tk 2) REMOVE_SUBSTANCE_FREEDOM
        else if (4 <=? size)%nat
        then withIndex (tokenAt tk 3)
               (REMOVE_SUBSTANCE (tokenAt tk 1) (tokenAt tk 2))
        else Ignored
      else if (cmd =? "ATTACK")%string then
        if (size =? 4)%nat && (tokenAt tk 1 =? "Freedom")%string
        then withIndices (tokenAt tk 2) (tokenAt tk 3) ATTACK_FREEDOM
        else if (5 <=? size)%nat
        then withIndices (tokenAt tk 3) (tokenAt tk 4)
               (ATTACK (tokenAt tk 1) (tokenAt tk 2))
        else Ignored
      else if (cmd =? "TALK")%string then
        if (size =? 3)%nat && (tokenAt tk 1 =? "Freedom")%string
        then withIndex (tokenAt tk 2) TALK_FREEDOM
        else if (4 <=? size)%nat
        then withIndex (tokenAt tk 3) (TALK (tokenAt tk 1) (tokenAt tk 2))
        else Ignored
      else if (cmd =? "PERIOD")%string then Call PERIOD
      else Ignored
  end.

(** How [main] ends.  It returns after the loop, having written [out] to
    [cout]; or a call of [stoi] throws, nothing catches the exception and
    the program is aborted while the manager is [m].  [cout] is not flushed
    on the way, so what of the lines handed to it had reached the standard
    output by then is not part of the model. *)
Inductive Ended : Type :=
| Returned (m : Manager) (out : list Event)
| Aborted (m : Manager).

Definition finalManager (e : Ended) : Manager :=
  match e with
  | Returned m _ => m
  | Aborted m => m
  end.

(** The loop of [main] with the count [C] read from the first line, on the
    lines [getline] delivers after it.  [while(C--)] tests the count and
    decrements it before [getline] is tried. *)
Fixpoint mainLoop (C : Z) (lines : list string) (m : Manager) : Ended :=
  if C =? 0 then Returned m []
  else
    let C' := wrap (C - 1) in
    match lines with
    | [] => Returned m []
    | line :: rest =>
        match line with
        | EmptyString => mainLoop C' rest m
        | _ =>
            match dispatch (tokens line) with
            | Ignored => mainLoop C' rest m
            | Thrown => Aborted m
            | Call c =>
                match mainLoop C' rest (fst (exec m c)) with
                | Returned m' out => Returned m' (snd (exec m c) ++ out)
                | Aborted m' => Aborted m'
                end
            end
        end
    end.

(** * Specification vocabulary *)

(** [ordered a b]: [a] may stand before [b] in a container. *)
Definition ordered (a b : Animal) : Prop :=
  daysLived a < daysLived b \/
  (daysLived a = daysLived b /\ String.leb (name a) (name b) = true).

(** A vector sorted by days, then by name. *)
Definition sortedByDaysThenName (l : list Animal) : Prop :=
  StronglySorted ordered l.

(** The animals of [l] with [d] days and the name [n], in their order. *)
Definition sameKey (d : Z) (n : string) (a : Animal) : bool :=
  (daysLived a =? d) && (name a =? n)%string.

(** The class of animal a member container is declared for; [Freedom<Animal>]
    is declared for every class. *)
Definition elementClass (r : ContainerRef) : option Class :=
  match r with
  | RefCageBird => Some Bird
  | RefCageBetterBird => Some BetterBird
  | RefCageMouse => Some Mouse
  | RefCageBetterMouse => Some BetterMouse
  | RefAquariumFish => Some Fish
  | RefAquariumBetterFish => Some BetterFish
  | RefAquariumMouse => Some Mouse
  | RefAquariumBetterMouse => Some BetterMouse
  | RefFreedom => None
  end.

(** [a] is of the class the container behind [r] is declared for. *)
Definition admits (r : ContainerRef) (a : Animal) : Prop :=
  match elementClass r with
  | Some k => class a = k
  | None => True
  end.

(** [Q] holds of every container of the manager. *)
Definition everywhere (Q : ContainerRef -> ContainerBase.t -> Prop)
           (m : Manager) : Prop :=
  forall r, Q r (deref m r).

(** Every container holds only animals of its declared class. *)
Definition wellTyped : Manager -> Prop :=
  everywhere (fun r l => Forall (admits r) l).

(** Every container is sorted. *)
Definition allSorted : Manager -> Prop :=
  everywhere (fun _ l => sortedByDaysThenName l).

(** An animal one day older, and whether it is then past the limit of its
    stage: more than 1 day for a monster, more than 10 for the others. *)
Definition olderByOne (a : Animal) : Animal := setDaysLived a (daysLived a + 1).

Definition pastLimit (a : Animal) : bool :=
  if isMonster a then daysLived a >? 1 else daysLived a >? 10.

(** Species and stage of a class; a monster no longer has a species. *)
Inductive Species : Type := SFish | SBird | SMouse.

Inductive Stage : Type := Normal | Better | MonsterStage.

Definition speciesOf (k : Class) : option Species :=
  match k with
  | Fish | BetterFish => Some SFish
  | Bird | BetterBird => Some SBird
  | Mouse | BetterMouse => Some SMouse
  | Monster => None
  end.

Definition stageOf (k : Class) : Stage :=
  match k with
  | Fish | Bird | Mouse => Normal
  | BetterFish | BetterBird | BetterMouse => Better
  | Monster => MonsterStage
  end.

(** The habitat kind a member container belongs to. *)
Inductive Habitat : Type := InCage | InAquarium | InFreedom.

Definition habitatOf (r : ContainerRef) : Habitat :=
  match r with
  | RefCageBird | RefCageBetterBird | RefCageMouse | RefCageBetterMouse =>
      InCage
  | RefAquariumFish | RefAquariumBetterFish
  | RefAquariumMouse | RefAquariumBetterMouse => InAquarium
  | RefFreedom => InFreedom
  end.

(** The line printed for the death of [a]. *)
Definition deathReport (a : Animal) : Event := HasDied (name a).

(** [d] is the ceiling of [a / 2]. *)
Definition isCeilHalf (a d : Z) : Prop := 2 * d - 1 <= a <= 2 * d.

(** The name by which [pickContainer] knows a habitat kind. *)
Definition habitatName (h : Habitat) : string :=
  match h with
  | InCage => "Cage"
  | InAquarium => "Aquarium"
  | InFreedom => "Freedom"
  end.

(** The type codes [makeAnimal] knows. *)
Definition creationCodes : list string := ["M"; "B"; "F"; "BM"; "BB"; "BF"]%string.

(** The number of animals the manager holds. *)
Definition population (m : Manager) : nat :=
  list_sum (map (fun r => List.length (deref m r)) periodOrder).

(** [a'] carries on [a]: the same name, and the same species unless [a'] has
    become a monster. *)
Definition carriesOn (a a' : Animal) : Prop :=
  name a' = name a /\
  (isMonster a' = true \/ speciesOf (class a') = speciesOf (class a)).

(** [P] holds of every animal the manager holds. *)
Definition allP (P : Animal -> Prop) : Manager -> Prop :=
  everywhere (fun _ l => Forall P l).

(** The lines that tell of an animal leaving the manager: a death, or an
    attack, which always kills its target. *)
Definition isDeparture (e : Event) : bool :=
  match e with
  | HasDied _ | IsAttacking _ => true
  | _ => false
  end.

Definition isCreate (c : Command) : bool :=
  match c with
  | CREATE _ _ _ _ => true
  | _ => false
  end.

(** A word: a string that is not empty and has no white space in it. *)
Fixpoint spaceFree (w : string) : bool :=
  match w with
  | EmptyString => true
  | String c rest => negb (isspace c) && spaceFree rest
  end.

Definition isWord (w : string) : Prop :=
  w <> EmptyString /\ spaceFree w = true.

(** * Properties *)

(** ** Arithmetic of ages *)

Lemma wrap_id (z : Z) : -2147483648 <= z <= INT_MAX -> wrap z = z.
Proof.
  unfold wrap, INT_MAX. intros H.
  rewrite Z.mod_small by lia. lia.
Qed.

(** [(a + 1) / 2] in C++ is the ceiling of [a / 2] for an age that is not
    negative and below [INT_MAX]. *)
Lemma halved_age (a : Z) :
  0 <= a < INT_MAX ->
  Z.quot (wrap (a + 1)) 2 = (a + 1) / 2 /\
  2 * ((a + 1) / 2) = (if Z.even a then a else a + 1).
Proof.
  intros H. unfold INT_MAX in H.
  rewrite wrap_id by (unfold INT_MAX; lia).
  rewrite Z.quot_div_nonneg by lia. split; [reflexivity|].
  destruct (Z.even a) eqn:E.
  - apply Z.even_spec in E. destruct E as [k ->].
    replace (2 * k + 1) with (1 + k * 2) by lia.
    rewrite Z.div_add by lia. simpl. lia.
  - rewrite <- Z.negb_odd in E. apply negb_false_iff, Z.odd_spec in E.
    destruct E as [k ->].
    replace (2 * k + 1 + 1) with ((k + 1) * 2) by lia.
    rewrite Z.div_mul by lia. lia.
Qed.

(** Outside that range the two differ: [CREATE] accepts a negative number
    of days, and the truncating division then rounds towards zero. *)
Example halving_negative_days :
  daysLived (newBetterMouse (mkAnimal Mouse "Jerry" (-2))) = 0 /\
  daysLived (newBetterMouse (mkAnimal Mouse "Jerry" (-3))) = -1.
Proof. split; reflexivity. Qed.

Lemma parity_cases (a : Z) :
  (Z.even a = true /\ exists k, a = 2 * k) \/
  (Z.even a = false /\ Z.odd a = true /\ exists k, a = 2 * k + 1).
Proof.
  destruct (Z.even a) eqn:E.
  - left. split; [reflexivity|]. now apply Z.even_spec in E.
  - right. split; [reflexivity|].
    assert (O : Z.odd a = true) by (rewrite <- Z.negb_even, E; reflexivity).
    split; [exact O|]. now apply Z.odd_spec in O.
Qed.

(** [(a + 1) / 2] as C++ computes it, for every [int] below [INT_MAX]: the
    ceiling of [a / 2] when [a] is not negative or is odd, one more than
    [a / 2] when [a] is negative and even; its double is again an [int]. *)
Lemma halved_age_int (a : Z) :
  INT_MIN <= a < INT_MAX ->
  Z.quot (wrap (a + 1)) 2 = Z.quot (a + 1) 2 /\
  (0 <= a \/ Z.odd a = true -> isCeilHalf a (Z.quot (a + 1) 2)) /\
  (a < 0 -> Z.even a = true -> Z.quot (a + 1) 2 = a / 2 + 1) /\
  2 * Z.quot (a + 1) 2
  = (if 0 <=? a then (if Z.even a then a else a + 1)
     else (if Z.even a then a + 2 else a + 1)) /\
  wrap (Z.quot (a + 1) 2 * 2) = Z.quot (a + 1) 2 * 2.
Proof.
  intros H. unfold INT_MIN, INT_MAX in H.
  rewrite wrap_id by (unfold INT_MAX; lia).
  split; [reflexivity|].
  assert (Q : 2 * Z.quot (a + 1) 2
              = (if 0 <=? a then (if Z.even a then a else a + 1)
                 else (if Z.even a then a + 2 else a + 1))).
  { destruct (parity_cases a) as [(E & k & ->)|(E & O & k & ->)]; rewrite E.
    - destruct (Z.leb_spec 0 (2 * k));
        Z.to_euclidean_division_equations; lia.
    - destruct (Z.leb_spec 0 (2 * k + 1));
        Z.to_euclidean_division_equations; lia. }
  unfold isCeilHalf. split; [|split; [|split; [exact Q|]]].
  - destruct (parity_cases a) as [(E & k & ->)|(E & O & k & ->)].
    + intros [P|P]; [|rewrite <- Z.negb_even, E in P; discriminate].
      Z.to_euclidean_division_equations. lia.
    + intros _. Z.to_euclidean_division_equations. lia.
  - intros N E. destruct (parity_cases a) as [(_ & k & ->)|(E' & _)];
      [|congruence].
    Z.to_euclidean_division_equations. lia.
  - apply wrap_id. rewrite Z.mul_comm, Q. unfold INT_MAX.
    destruct (Z.leb_spec 0 a), (Z.even a); lia.
Qed.

(** ** The order of [SortAnimals] *)

Lemma string_compare_refl (s : string) : String.compare s s = Eq.
Proof.
  induction s as [|c s IH]; simpl; [reflexivity|].
  unfold Ascii.compare. rewrite N.compare_refl. exact IH.
Qed.

Lemma string_compare_lt_trans (s1 s2 s3 : string) :
  String.compare s1 s2 = Lt -> String.compare s2 s3 = Lt ->
  String.compare s1 s3 = Lt.
Proof.
  revert s2 s3.
  induction s1 as [|c1 s1 IH]; intros [|c2 s2] [|c3 s3]; simpl;
    try congruence.
  unfold Ascii.compare.
  destruct (N.compare_spec (N_of_ascii c1) (N_of_ascii c2)) as [E12|L12|G12];
    try discriminate;
    destruct (N.compare_spec (N_of_ascii c2) (N_of_ascii c3)) as [E23|L23|G23];
    try discriminate; intros H12 H23.
  - rewrite E12, E23, N.compare_refl. eauto.
  - rewrite E12. apply N.compare_lt_iff in L23. now rewrite L23.
  - rewrite <- E23. apply N.compare_lt_iff in L12. now rewrite L12.
  - assert (L : (N_of_ascii c1 < N_of_ascii c3)%N) by lia.
    apply N.compare_lt_iff in L. now rewrite L.
Qed.

Lemma string_ltb_false_leb (s1 s2 : string) :
  String.ltb s2 s1 = false <-> String.leb s1 s2 = true.
Proof.
  unfold String.ltb, String.leb. rewrite (String.compare_antisym s2 s1).
  destruct (String.compare s1 s2); simpl; split; congruence.
Qed.

Lemma string_leb_trans (s1 s2 s3 : string) :
  String.leb s1 s2 = true -> String.leb s2 s3 = true ->
  String.leb s1 s3 = true.
Proof.
  unfold String.leb. intros H12 H23.
  destruct (String.compare s1 s3) eqn:E13; try reflexivity.
  exfalso.
  assert (L31 : String.compare s3 s1 = Lt)
    by (rewrite String.compare_antisym, E13; reflexivity).
  destruct (String.compare s1 s2) eqn:E12; try discriminate.
  - apply String.compare_eq_iff in E12. subst s2.
    rewrite E13 in H23. discriminate.
  - pose proof (string_compare_lt_trans _ _ _ L31 E12) as L32.
    rewrite String.compare_antisym, L32 in H23. discriminate.
Qed.

Lemma SortAnimals_false_ordered (a b : Animal) :
  SortAnimals b a = false <-> ordered a b.
Proof.
  unfold SortAnimals, ordered.
  destruct (Z.eqb_spec (daysLived b) (daysLived a)) as [E|NE]; simpl.
  - rewrite string_ltb_false_leb. intuition lia.
  - rewrite Z.ltb_ge. intuition lia.
Qed.

Lemma SortAnimals_true_ordered (a b : Animal) :
  SortAnimals a b = true -> ordered a b.
Proof.
  unfold SortAnimals, ordered.
  destruct (Z.eqb_spec (daysLived a) (daysLived b)) as [E|NE]; simpl.
  - intros H. right. split; [exact E|].
    unfold String.ltb in H. unfold String.leb.
    destruct (String.compare (name a) (name b)); congruence.
  - rewrite Z.ltb_lt. auto.
Qed.

Lemma ordered_trans (a b c : Animal) : ordered a b -> ordered b c -> ordered a c.
Proof.
  unfold ordered. intros [H1|[H1 L1]] [H2|[H2 L2]]; try (left; lia).
  right. split; [lia|]. eapply string_leb_trans; eassumption.
Qed.

Lemma sameKey_not_before (d : Z) (n : string) (a b : Animal) :
  sameKey d n a = true -> sameKey d n b = true -> SortAnimals a b = false.
Proof.
  unfold sameKey, SortAnimals.
  rewrite !andb_true_iff, !Z.eqb_eq, !String.eqb_eq.
  intros [Da Na] [Db Nb]. rewrite Da, Db, Na, Nb, Z.eqb_refl. simpl.
  unfold String.ltb. now rewrite string_compare_refl.
Qed.

(** ** stable_sort *)

Section StableSortFacts.
Context {A : Type} (lt : A -> A -> bool) (le : A -> A -> Prop).
Hypothesis lt_le : forall x y, lt x y = true -> le x y.
Hypothesis nlt_le : forall x y, lt y x = false <-> le x y.
Hypothesis le_trans : forall x y z, le x y -> le y z -> le x z.

Lemma insert_sorted_perm (x : A) (l : list A) :
  Permutation (insert_sorted lt x l) (x :: l).
Proof.
  induction l as [|y l IH]; simpl; [reflexivity|].
  destruct (lt y x); [|reflexivity].
  rewrite IH. apply perm_swap.
Qed.

Lemma stable_sort_perm (l : list A) : Permutation (stable_sort lt l) l.
Proof.
  induction l as [|x l IH]; simpl; [reflexivity|].
  rewrite insert_sorted_perm. now constructor.
Qed.

Lemma insert_sorted_sorted (x : A) (l : list A) :
  StronglySorted le l -> StronglySorted le (insert_sorted lt x l).
Proof.
  induction 1 as [|y l S IH F]; simpl.
  - repeat constructor.
  - destruct (lt y x) eqn:E.
    + constructor; [exact IH|].
      eapply Permutation_Forall; [symmetry; apply insert_sorted_perm|].
      constructor; auto.
    + assert (Lxy : le x y) by now apply nlt_le.
      constructor; [now constructor|].
      constructor; [exact Lxy|].
      eapply Forall_impl; [|exact F]. intros z Hz. eauto.
Qed.

Lemma stable_sort_sorted (l : list A) : StronglySorted le (stable_sort lt l).
Proof.
  induction l as [|x l IH]; simpl; [constructor|].
  now apply insert_sorted_sorted.
Qed.

(** A sorted vector is left as it is. *)
Lemma stable_sort_fixed (l : list A) :
  StronglySorted le l -> stable_sort lt l = l.
Proof.
  induction 1 as [|x l S IH F]; simpl; [reflexivity|].
  rewrite IH. destruct l as [|y l]; simpl; [reflexivity|].
  inversion F as [|? ? Lxy _]; subst.
  apply nlt_le in Lxy. now rewrite Lxy.
Qed.

(** Elements that [lt] never separates keep their order. *)
Section Stability.
Variable p : A -> bool.
Hypothesis p_tied : forall x y, p x = true -> p y = true -> lt x y = false.

Lemma insert_sorted_filter (x : A) (l : list A) :
  filter p (insert_sorted lt x l) = filter p (x :: l).
Proof.
  induction l as [|y l IH]; [reflexivity|].
  cbn [insert_sorted]. destruct (lt y x) eqn:E; [|reflexivity].
  cbn [filter] in *. rewrite IH.
  destruct (p y) eqn:Py, (p x) eqn:Px; try reflexivity.
  rewrite (p_tied y x Py Px) in E. discriminate.
Qed.

Lemma stable_sort_filter (l : list A) :
  filter p (stable_sort lt l) = filter p l.
Proof.
  induction l as [|x l IH]; [reflexivity|].
  cbn [stable_sort]. rewrite insert_sorted_filter.
  cbn [filter]. now rewrite IH.
Qed.
End Stability.
End StableSortFacts.

Module ContainerFacts.
Import ContainerBase.

Lemma update_sorted (l : t) : sortedByDaysThenName (update l).
Proof.
  apply (stable_sort_sorted SortAnimals ordered).
  - exact SortAnimals_true_ordered.
  - exact SortAnimals_false_ordered.
  - exact ordered_trans.
Qed.

Lemma update_perm (l : t) : Permutation (update l) l.
Proof. apply stable_sort_perm. Qed.

Lemma update_fixed (l : t) : sortedByDaysThenName l -> update l = l.
Proof.
  apply (stable_sort_fixed SortAnimals ordered).
  exact SortAnimals_false_ordered.
Qed.

Lemma update_stable (d : Z) (n : string) (l : t) :
  filter (sameKey d n) (update l) = filter (sameKey d n) l.
Proof. apply stable_sort_filter, sameKey_not_before. Qed.

Lemma sameKey_self (a : Animal) : sameKey (daysLived a) (name a) a = true.
Proof. unfold sameKey. now rewrite Z.eqb_refl, String.eqb_refl. Qed.

Lemma ordered_antisym (a b : Animal) :
  ordered a b -> ordered b a -> sameKey (daysLived a) (name a) b = true.
Proof.
  unfold ordered, sameKey. intros [H1|[H1 L1]] [H2|[H2 L2]]; try lia.
  rewrite (String.leb_antisym _ _ L1 L2), H1.
  now rewrite Z.eqb_refl, String.eqb_refl.
Qed.

(** Sortedness and the order within each group of equal days and names
    leave no choice: two such arrangements of the same animals are equal. *)
Lemma sorted_stable_unique (l1 l2 : t) :
  sortedByDaysThenName l1 -> sortedByDaysThenName l2 ->
  (forall d n, filter (sameKey d n) l1 = filter (sameKey d n) l2) ->
  l1 = l2.
Proof.
  revert l2. induction l1 as [|x t1 IH]; intros [|y t2] S1 S2 F.
  - reflexivity.
  - specialize (F (daysLived y) (name y)). cbn [filter] in F.
    rewrite sameKey_self in F. discriminate.
  - specialize (F (daysLived x) (name x)). cbn [filter] in F.
    rewrite sameKey_self in F. discriminate.
  - inversion S1 as [|? ? S1' F1]; inversion S2 as [|? ? S2' F2]; subst.
    rewrite Forall_forall in F1, F2.
    assert (K : sameKey (daysLived x) (name x) y = true).
    { destruct (sameKey (daysLived x) (name x) y) eqn:E; [reflexivity|].
      pose proof (F (daysLived x) (name x)) as Fx.
      pose proof (F (daysLived y) (name y)) as Fy.
      cbn [filter] in Fx, Fy. rewrite sameKey_self in Fx, Fy.
      rewrite E in Fx.
      assert (Ix : In x t2).
      { eapply (proj1 (filter_In _ _ _)). rewrite <- Fx. now left. }
      assert (Iy : In y (x :: t1)).
      { revert Fy. destruct (sameKey (daysLived y) (name y) x); intros Fy.
        - injection Fy as -> _. now left.
        - right. eapply (proj1 (filter_In _ _ _)). rewrite Fy. now left. }
      destruct Iy as [->|Iy]; [now rewrite sameKey_self in E|].
      rewrite <- E. apply ordered_antisym; auto. }
    pose proof (F (daysLived x) (name x)) as Fx. cbn [filter] in Fx.
    rewrite sameKey_self, K in Fx. injection Fx as -> _.
    f_equal. apply IH; try assumption.
    intros d n. specialize (F d n). cbn [filter] in F.
    destruct (sameKey d n y); [now injection F|exact F].
Qed.

Lemma update_In (a : Animal) (l : t) : In a (update l) <-> In a l.
Proof.
  split; apply Permutation_in;
    [apply update_perm | symmetry; apply update_perm].
Qed.

Lemma update_length (l : t) : List.length (update l) = List.length l.
Proof. apply Permutation_length, update_perm. Qed.

(** [update] is the only sorted arrangement that keeps the order within
    each group of equal days and names: what [std::stable_sort] promises
    determines its result. *)
Lemma update_unique (l l' : t) :
  sortedByDaysThenName l' ->
  (forall d n, filter (sameKey d n) l' = filter (sameKey d n) l) ->
  l' = update l.
Proof.
  intros S F. apply sorted_stable_unique; [exact S|apply update_sorted|].
  intros d n. now rewrite update_stable.
Qed.

End ContainerFacts.

(** ** erase *)

Section EraseFacts.
Context {A : Type}.
Implicit Types (l : list A) (i : nat).

Lemma erase_nil i : erase i (@nil A) = [].
Proof. unfold erase. now rewrite firstn_nil, skipn_nil. Qed.

Lemma erase_zero (x : A) l : erase 0 (x :: l) = l.
Proof. reflexivity. Qed.

Lemma erase_succ (x : A) l i : erase (S i) (x :: l) = x :: erase i l.
Proof. reflexivity. Qed.

Lemma erase_app (pre : list A) (x : A) l :
  erase (List.length pre) (pre ++ x :: l) = pre ++ l.
Proof.
  induction pre as [|y pre IH]; [reflexivity|].
  cbn [List.length app]. now rewrite erase_succ, IH.
Qed.

Lemma erase_incl l i (x : A) : In x (erase i l) -> In x l.
Proof.
  revert i. induction l as [|y l IH]; intros i.
  - now rewrite erase_nil.
  - destruct i as [|i]; [rewrite erase_zero; now right|].
    rewrite erase_succ. intros [->|H]; [now left|right; eauto].
Qed.

Lemma erase_Forall (P : A -> Prop) l i : Forall P l -> Forall P (erase i l).
Proof.
  rewrite !Forall_forall. intros H x Hx. eapply H, erase_incl, Hx.
Qed.

Lemma erase_sorted (R : A -> A -> Prop) l i :
  StronglySorted R l -> StronglySorted R (erase i l).
Proof.
  intros S. revert i. induction S as [|x l S IH F]; intros i.
  - rewrite erase_nil. constructor.
  - destruct i as [|i]; [now rewrite erase_zero|].
    rewrite erase_succ. constructor; [apply IH|now apply erase_Forall].
Qed.

Lemma erase_length l i :
  (i < List.length l)%nat -> S (List.length (erase i l)) = List.length l.
Proof.
  revert i. induction l as [|x l IH]; intros i H; simpl in H; [lia|].
  destruct i as [|i]; [reflexivity|].
  rewrite erase_succ. simpl. f_equal. apply IH. lia.
Qed.

(** The element taken out, put back, gives the vector up to order. *)
Lemma erase_perm l i (x : A) :
  nth_error l i = Some x -> Permutation (x :: erase i l) l.
Proof.
  revert i. induction l as [|y l IH]; intros [|i] H; simpl in H;
    try discriminate.
  - injection H as ->. reflexivity.
  - rewrite erase_succ. rewrite perm_swap. constructor. now apply IH.
Qed.

(** The elements in front of the erased one stay where they are, those
    behind it move one place forward. *)
Lemma nth_error_erase l i j :
  nth_error (erase i l) j =
  if (j <? i)%nat then nth_error l j else nth_error l (S j).
Proof.
  revert i j. induction l as [|x l IH]; intros i j.
  - rewrite erase_nil. destruct (j <? i)%nat; now destruct j.
  - destruct i as [|i]; [reflexivity|].
    rewrite erase_succ. destruct j as [|j]; [reflexivity|].
    simpl nth_error. rewrite IH. reflexivity.
Qed.
End EraseFacts.

(** ** The container operations *)

Module OperationFacts.
Import ContainerBase ContainerFacts.

Lemma get_Some (l : t) (idx : Z) (a : Animal) :
  get l idx = Some a <->
  0 <= idx < size l /\ nth_error l (Z.to_nat idx) = Some a.
Proof.
  unfold get.
  destruct (Z.ltb_spec idx 0), (Z.geb_spec idx (size l)); simpl;
    split; try (intros [? ?]; lia); try discriminate; intuition lia.
Qed.

Lemma get_in_range (l : t) (idx : Z) :
  0 <= idx < size l -> exists a, get l idx = Some a.
Proof.
  intros H.
  destruct (nth_error l (Z.to_nat idx)) as [a|] eqn:E.
  - exists a. apply get_Some. auto.
  - apply nth_error_None in E. unfold size in H. lia.
Qed.

Lemma get_In (l : t) (idx : Z) (a : Animal) : get l idx = Some a -> In a l.
Proof. intros H. apply get_Some in H. eapply nth_error_In, H. Qed.

Lemma In_get (l : t) (a : Animal) : In a l -> exists idx, get l idx = Some a.
Proof.
  intros H. apply In_nth_error in H. destruct H as [i H].
  exists (Z.of_nat i). apply get_Some. rewrite Nat2Z.id. split; [|exact H].
  assert (i < List.length l)%nat by (apply nth_error_Some; congruence).
  unfold size. lia.
Qed.

Lemma guard_in_range (l : t) (idx : Z) :
  0 <= idx < size l -> (idx <? 0) || (idx >=? size l) = false.
Proof.
  intros H. destruct (Z.ltb_spec idx 0), (Z.geb_spec idx (size l)); simpl;
    lia || reflexivity.
Qed.

Lemma guard_out_of_range (l : t) (idx : Z) :
  idx < 0 \/ size l <= idx -> (idx <? 0) || (idx >=? size l) = true.
Proof.
  intros H. destruct (Z.ltb_spec idx 0), (Z.geb_spec idx (size l)); simpl;
    lia || reflexivity.
Qed.

Lemma removeByIndex_in_range (l : t) (idx : Z) :
  0 <= idx < size l ->
  snd (removeByIndex l idx) = update (erase (Z.to_nat idx) l).
Proof.
  intros H. unfold removeByIndex. now rewrite guard_in_range.
Qed.

Lemma removeByIndex_sorted (l : t) (idx : Z) :
  sortedByDaysThenName l -> sortedByDaysThenName (snd (removeByIndex l idx)).
Proof.
  intros S. unfold removeByIndex.
  destruct ((idx <? 0) || (idx >=? size l)); simpl;
    [exact S|apply update_sorted].
Qed.

Lemma removeByIndex_Forall (P : Animal -> Prop) (l : t) (idx : Z) :
  Forall P l -> Forall P (snd (removeByIndex l idx)).
Proof.
  intros F. unfold removeByIndex.
  destruct ((idx <? 0) || (idx >=? size l)); simpl; [exact F|].
  eapply Permutation_Forall; [symmetry; apply update_perm|].
  now apply erase_Forall.
Qed.

Lemma add_Forall (P : Animal -> Prop) (l : t) (a : Animal) :
  Forall P l -> P a -> Forall P (add l a).
Proof.
  intros F Pa. unfold add.
  eapply Permutation_Forall; [symmetry; apply update_perm|].
  apply Forall_app. auto.
Qed.

Lemma add_In (l : t) (a : Animal) : In a (add l a).
Proof. unfold add. rewrite update_In, in_app_iff. right. now left. Qed.

(** *** incrementDays *)

Lemma ageFrom_step (i : nat) (a : Animal) (rest : t) :
  ageFrom i (a :: rest) =
  (incrementDay a :: fst (fst (ageFrom (S i) rest)),
   if pastLimit (incrementDay a)
   then i :: snd (fst (ageFrom (S i) rest))
   else snd (fst (ageFrom (S i) rest)),
   if pastLimit (incrementDay a)
   then deathReport (incrementDay a) :: snd (ageFrom (S i) rest)
   else snd (ageFrom (S i) rest)).
Proof.
  cbn [ageFrom]. destruct (ageFrom (S i) rest) as [[rest' dead] out].
  unfold pastLimit, deathReport. cbn [fst snd].
  destruct (isMonster (incrementDay a)); cbn [andb negb];
    now destruct (daysLived (incrementDay a) >? _).
Qed.

Lemma ageFrom_aged (l : t) (i : nat) :
  fst (fst (ageFrom i l)) = map incrementDay l.
Proof.
  revert i. induction l as [|a l IH]; intros i; [reflexivity|].
  rewrite ageFrom_step. cbn [fst map]. now rewrite IH.
Qed.

Lemma ageFrom_out (l : t) (i : nat) :
  snd (ageFrom i l) = map deathReport (filter pastLimit (map incrementDay l)).
Proof.
  revert i. induction l as [|a l IH]; intros i; [reflexivity|].
  rewrite ageFrom_step. cbn [snd map filter].
  destruct (pastLimit (incrementDay a)); cbn [map]; now rewrite IH.
Qed.

(** Erasing the recorded indices from the back leaves the survivors. *)
Lemma ageFrom_dead (l : t) (pre : t) :
  eraseDead (pre ++ map incrementDay l)
            (snd (fst (ageFrom (List.length pre) l))) =
  pre ++ filter (fun a => negb (pastLimit a)) (map incrementDay l).
Proof.
  revert pre. induction l as [|a l IH]; intros pre; [reflexivity|].
  rewrite ageFrom_step. cbn [fst snd map filter].
  specialize (IH (pre ++ [incrementDay a])).
  rewrite length_app, Nat.add_1_r, <- app_assoc in IH. cbn [app] in IH.
  destruct (pastLimit (incrementDay a)); cbn [negb].
  - unfold eraseDead in *. cbn [fold_right]. rewrite IH.
    rewrite <- app_assoc. cbn [app]. apply erase_app.
  - rewrite IH, <- app_assoc. reflexivity.
Qed.

(** The two loops of [incrementDays] together: everyone is aged, those
    past their limit are reported and removed, the rest is sorted. *)
Lemma incrementDays_spec (l : t) :
  incrementDays l =
  (update (filter (fun a => negb (pastLimit a)) (map incrementDay l)),
   map deathReport (filter pastLimit (map incrementDay l))).
Proof.
  unfold incrementDays.
  pose proof (ageFrom_aged l 0) as Ha.
  pose proof (ageFrom_out l 0) as Ho.
  pose proof (ageFrom_dead l []) as Hd.
  cbn [app List.length] in Hd.
  destruct (ageFrom 0 l) as [[aged dead] out].
  cbn [fst snd] in *. subst aged out.
  now rewrite Hd.
Qed.

Lemma incrementDay_olderByOne (a : Animal) :
  INT_MIN <= daysLived a < INT_MAX -> incrementDay a = olderByOne a.
Proof.
  unfold INT_MIN, INT_MAX. intros H. unfold incrementDay, olderByOne.
  rewrite wrap_id by (unfold INT_MAX; lia). reflexivity.
Qed.

Lemma incrementDays_sorted (l : t) :
  sortedByDaysThenName (fst (incrementDays l)).
Proof. rewrite incrementDays_spec. apply update_sorted. Qed.

Lemma incrementDays_Forall (P : Animal -> Prop) (l : t) :
  (forall a, P a -> P (incrementDay a)) ->
  Forall P l -> Forall P (fst (incrementDays l)).
Proof.
  intros Hstep F. rewrite incrementDays_spec. cbn [fst].
  eapply Permutation_Forall; [symmetry; apply update_perm|].
  rewrite Forall_forall in *. intros a Ha.
  apply filter_In in Ha. destruct Ha as [Ha _].
  apply in_map_iff in Ha. destruct Ha as [b [<- Hb]]. auto.
Qed.

Lemma incrementDays_no_rejection (l : t) :
  existsb isRejection (snd (incrementDays l)) = false.
Proof.
  rewrite incrementDays_spec. cbn [snd].
  induction (filter pastLimit (map incrementDay l)) as [|a k IH];
    [reflexivity|exact IH].
Qed.

End OperationFacts.

(** ** The manager's containers *)

Lemma ContainerRef_eq_dec (r r' : ContainerRef) : {r = r'} + {r <> r'}.
Proof. decide equality. Defined.

Lemma deref_assign_same (m : Manager) (r : ContainerRef) (c : ContainerBase.t) :
  deref (assign m r c) r = c.
Proof. now destruct r. Qed.

Lemma deref_assign_other (m : Manager) (r r' : ContainerRef)
      (c : ContainerBase.t) :
  r <> r' -> deref (assign m r c) r' = deref m r'.
Proof. destruct r, r'; intros H; try reflexivity; now destruct H. Qed.

Lemma pickContainer_Some (cont typeCode : string) (r : ContainerRef) :
  pickContainer cont typeCode = Some r ->
  match r with
  | RefCageBird => cont = "Cage" /\ typeCode = "B"
  | RefCageBetterBird => cont = "Cage" /\ typeCode = "BB"
  | RefCageMouse => cont = "Cage" /\ typeCode = "M"
  | RefCageBetterMouse => cont = "Cage" /\ typeCode = "BM"
  | RefAquariumFish => cont = "Aquarium" /\ typeCode = "F"
  | RefAquariumBetterFish => cont = "Aquarium" /\ typeCode = "BF"
  | RefAquariumMouse => cont = "Aquarium" /\ typeCode = "M"
  | RefAquariumBetterMouse => cont = "Aquarium" /\ typeCode = "BM"
  | RefFreedom => cont = "Freedom"
  end%string.
Proof.
  unfold pickContainer.
  repeat match goal with
         | |- context [String.eqb ?x ?y] => destruct (String.eqb_spec x y)
         end;
    intros H; inversion H; subst; auto.
Qed.

Lemma pickContainer_not_Freedom (cont typeCode : string) (r : ContainerRef) :
  cont <> "Freedom"%string -> pickContainer cont typeCode = Some r ->
  r <> RefFreedom.
Proof.
  intros NF H ->. apply pickContainer_Some in H. contradiction.
Qed.

(** A container picked by an animal's own type code is declared for it. *)
Lemma pickContainer_admits (cont : string) (a : Animal) (r : ContainerRef) :
  pickContainer cont (getTypeCode a) = Some r -> admits r a.
Proof.
  intros H. apply pickContainer_Some in H.
  unfold admits, getTypeCode in *.
  destruct r; cbn [elementClass]; try exact I;
    destruct H as [_ H]; destruct (class a); try reflexivity; discriminate.
Qed.

Lemma makeAnimal_Some (type n : string) (d : Z) (a : Animal) :
  makeAnimal type n d = Some a ->
  getTypeCode a = type /\ name a = n /\ daysLived a = d /\ isMonster a = false.
Proof.
  unfold makeAnimal.
  repeat match goal with
         | |- context [String.eqb ?x ?y] => destruct (String.eqb_spec x y)
         end;
    intros H; inversion H; subst; auto.
Qed.

Lemma betterOf_Some (a b : Animal) :
  betterOf a = Some b ->
  isNormal a = true /\ isBetter b = true /\
  speciesOf (class b) = speciesOf (class a) /\ name b = name a /\
  daysLived b = Z.quot (wrap (daysLived a + 1)) 2.
Proof.
  unfold betterOf, getTypeCode, isNormal.
  destruct a as [k n d]; destruct k; cbn; intros H; inversion H; auto.
Qed.

Lemma normalOf_Some (a b : Animal) :
  normalOf a = Some b ->
  isBetter a = true /\ isNormal b = true /\
  speciesOf (class b) = speciesOf (class a) /\ name b = name a /\
  daysLived b = wrap (daysLived a * 2).
Proof.
  unfold normalOf, getTypeCode, isBetter.
  destruct a as [k n d]; destruct k; cbn; intros H; inversion H; auto.
Qed.

(** ** Invariants of the command loop *)

(** Follow every branch of a handler. *)
Ltac split_handler :=
  repeat match goal with
         | |- context [if ?b then _ else _] => destruct b eqn:?
         | |- context [match ?x with _ => _ end] => destruct x eqn:?
         end;
  cbn [fst snd].

(** A property [Q] of single containers that the four container mutations
    keep is kept in every container by every command. *)
Section Invariant.
Variable Q : ContainerRef -> ContainerBase.t -> Prop.
Hypothesis Q_add : forall r l a,
    Q r l -> admits r a -> Q r (ContainerBase.add l a).
Hypothesis Q_remove : forall r l idx,
    Q r l -> Q r (snd (ContainerBase.removeByIndex l idx)).
Hypothesis Q_age : forall r l,
    Q r l -> Q r (fst (ContainerBase.incrementDays l)).
Hypothesis Q_clear : forall r, Q r [].

Lemma everywhere_assign (m : Manager) (r : ContainerRef)
      (c : ContainerBase.t) :
  everywhere Q m -> Q r c -> everywhere Q (assign m r c).
Proof.
  intros Hm Hc r'. destruct (ContainerRef_eq_dec r r') as [<-|NE].
  - now rewrite deref_assign_same.
  - rewrite deref_assign_other by exact NE. apply Hm.
Qed.

Lemma everywhere_addTo (m : Manager) (r : ContainerRef) (a : Animal) :
  everywhere Q m -> admits r a -> everywhere Q (addTo m r a).
Proof. intros Hm Ha. apply everywhere_assign; auto. Qed.

Local Hint Resolve everywhere_assign everywhere_addTo pickContainer_admits
  : core.

Lemma everywhere_handleCreate m type n cont d :
  everywhere Q m -> everywhere Q (fst (handleCreate m type n cont d)).
Proof.
  intros Hm. unfold handleCreate.
  destruct (makeAnimal type n d) as [a|] eqn:Ea; [|exact Hm].
  apply makeAnimal_Some in Ea. destruct Ea as [<- _].
  split_handler; eauto. apply everywhere_addTo; [exact Hm|exact I].
Qed.

Lemma everywhere_handleApplySubstance m cont type pos :
  everywhere Q m -> everywhere Q (fst (handleApplySubstance m cont type pos)).
Proof.
  intros Hm. unfold handleApplySubstance, handleApplySubstanceFreedom.
  unfold ContainerBase.clear.
  split_handler; eauto.
  - apply everywhere_addTo; [|exact I]. auto.
Qed.

Lemma everywhere_handleRemoveSubstance m cont type pos :
  everywhere Q m -> everywhere Q (fst (handleRemoveSubstance m cont type pos)).
Proof.
  intros Hm. unfold handleRemoveSubstance, handleRemoveSubstanceFreedom.
  split_handler; eauto.
Qed.

Lemma everywhere_handleAttack m cont type p1 p2 :
  everywhere Q m -> everywhere Q (fst (handleAttack m cont type p1 p2)).
Proof.
  intros Hm. unfold handleAttack, handleAttackFreedom.
  split_handler; eauto.
Qed.

Lemma everywhere_handleTalk m cont type pos :
  everywhere Q m -> fst (handleTalk m cont type pos) = m.
Proof.
  intros Hm. unfold handleTalk, handleTalkFreedom.
  split_handler; reflexivity.
Qed.

Lemma incrementDaysAt_fst (st : Manager * list Event) (r : ContainerRef) :
  incrementDaysAt st r =
  (assign (fst st) r (fst (ContainerBase.incrementDays (deref (fst st) r))),
   snd st ++ snd (ContainerBase.incrementDays (deref (fst st) r))).
Proof.
  destruct st as [m out]. unfold incrementDaysAt. cbn [fst snd].
  now destruct (ContainerBase.incrementDays (deref m r)).
Qed.

Lemma everywhere_doPeriod m : everywhere Q m -> everywhere Q (fst (doPeriod m)).
Proof.
  unfold doPeriod. generalize (@nil Event).
  induction periodOrder as [|r rs IH] in m |- *; intros out Hm; [exact Hm|].
  cbn [fold_left]. rewrite incrementDaysAt_fst. cbn [fst snd].
  apply IH. auto.
Qed.

Lemma everywhere_exec (m : Manager) (c : Command) :
  everywhere Q m -> everywhere Q (fst (exec m c)).
Proof.
  intros Hm.
  destruct c; cbn [exec];
    auto using everywhere_handleCreate, everywhere_handleApplySubstance,
      everywhere_handleRemoveSubstance, everywhere_handleAttack,
      everywhere_doPeriod.
  - unfold handleTalkFreedom. split_handler; exact Hm.
  - now rewrite everywhere_handleTalk.
Qed.

Lemma everywhere_run (m : Manager) (cs : list Command) :
  everywhere Q m -> everywhere Q (run m cs).
Proof.
  unfold run. revert m.
  induction cs as [|c cs IH]; intros m Hm; [exact Hm|].
  cbn [fold_left]. apply IH, everywhere_exec, Hm.
Qed.
End Invariant.

Lemma emptyManager_everywhere (Q : ContainerRef -> ContainerBase.t -> Prop) :
  (forall r, Q r []) -> everywhere Q emptyManager.
Proof. intros H r. destruct r; apply H. Qed.

Lemma run_allSorted (cs : list Command) : allSorted (run emptyManager cs).
Proof.
  apply everywhere_run.
  - intros r l a _ _. apply ContainerFacts.update_sorted.
  - intros r l idx. apply OperationFacts.removeByIndex_sorted.
  - intros r l _. apply OperationFacts.incrementDays_sorted.
  - intros r. constructor.
  - apply emptyManager_everywhere. constructor.
Qed.

Lemma admits_incrementDay (r : ContainerRef) (a : Animal) :
  admits r a -> admits r (incrementDay a).
Proof. exact (fun H => H). Qed.

Lemma run_wellTyped (cs : list Command) : wellTyped (run emptyManager cs).
Proof.
  apply everywhere_run.
  - intros r l a. apply OperationFacts.add_Forall.
  - intros r l idx. apply OperationFacts.removeByIndex_Forall.
  - intros r l. apply OperationFacts.incrementDays_Forall.
    apply admits_incrementDay.
  - intros r. constructor.
  - apply emptyManager_everywhere. constructor.
Qed.

Lemma admits_not_monster (r : ContainerRef) (a : Animal) :
  r <> RefFreedom -> admits r a -> isMonster a = false.
Proof.
  unfold admits, isMonster.
  destruct r; cbn [elementClass]; intros NF H; try (now rewrite H).
  now destruct NF.
Qed.

(** ** The lines of a command *)

Lemma deathReports_no_rejection (l : list Animal) :
  existsb isRejection (map deathReport l) = false.
Proof. induction l as [|a l IH]; [reflexivity|exact IH]. Qed.

Lemma doPeriod_no_rejection (m : Manager) :
  existsb isRejection (snd (doPeriod m)) = false.
Proof.
  unfold doPeriod.
  assert (H : existsb isRejection (snd (m, @nil Event)) = false)
    by reflexivity.
  revert H. generalize (m, @nil Event).
  induction periodOrder as [|r rs IH]; intros st H; [exact H|].
  cbn [fold_left]. apply IH. rewrite incrementDaysAt_fst. cbn [snd].
  rewrite existsb_app, H. apply OperationFacts.incrementDays_no_rejection.
Qed.

(** ** The scenarios of the specification, evaluated *)

Example jerry_transcript :
  map render (output emptyManager [CREATE "M" "Jerry" "Cage" 9; PERIOD; PERIOD])
  = ["My name is Jerry, days lived: 9"; "Jerry has died of old days"]%string.
Proof. reflexivity. Qed.

Example nemo_becomes_monster :
  let cs := [CREATE "F" "Nemo" "Aquarium" 4;
             APPLY_SUBSTANCE "Aquarium" "F" 0] in
  run emptyManager cs
  = assign emptyManager RefAquariumBetterFish [mkAnimal BetterFish "Nemo" 2] /\
  run emptyManager (cs ++ [APPLY_SUBSTANCE "Aquarium" "BF" 0])
  = assign emptyManager RefFreedom [mkAnimal Monster "Nemo" 1].
Proof. split; reflexivity. Qed.

Example birds_attack :
  let cs := [CREATE "B" "Zazu" "Cage" 5; CREATE "B" "Iago" "Cage" 5] in
  run emptyManager cs
  = assign emptyManager RefCageBird
           [mkAnimal Bird "Iago" 5; mkAnimal Bird "Zazu" 5] /\
  exec (run emptyManager cs) (ATTACK "Cage" "B" 0 1)
  = (assign emptyManager RefCageBird [mkAnimal Bird "Iago" 5],
     [IsAttacking "Bird"]).
Proof. split; reflexivity. Qed.

(** * The engine's contract *)

(** ** Rejections *)

(** C9.  A command that prints a rejection line ("Animal not found",
    "Invalid substance removal", or one of the three Freedom refusals)
    leaves the manager exactly as it was: every container keeps its animals
    with their class, name and days. *)
Theorem rejection_leaves_state (m : Manager) (c : Command) :
  existsb isRejection (snd (exec m c)) = true -> fst (exec m c) = m.
Proof.
  destruct c; cbn [exec].
  - unfold handleCreate. split_handler; (reflexivity || discriminate).
  - reflexivity.
  - unfold handleApplySubstance, handleApplySubstanceFreedom.
    unfold ContainerBase.clear.
    split_handler; try reflexivity; try discriminate.
    fold deathReport. now rewrite deathReports_no_rejection.
  - reflexivity.
  - unfold handleRemoveSubstance, handleRemoveSubstanceFreedom.
    split_handler; (reflexivity || discriminate).
  - reflexivity.
  - unfold handleAttack, handleAttackFreedom.
    split_handler; (reflexivity || discriminate).
  - unfold handleTalkFreedom. split_handler; reflexivity.
  - unfold handleTalk, handleTalkFreedom. split_handler; reflexivity.
  - now rewrite doPeriod_no_rejection.
Qed.

Lemma rejection_leaves_state_witness :
  let m := fst (exec emptyManager (CREATE "B" "Iago" "Cage" 3)) in
  existsb isRejection (snd (exec m (ATTACK "Cage" "B" 0 0))) = true /\
  fst (exec m (ATTACK "Cage" "B" 0 0)) = m.
Proof.
  split; [reflexivity|].
  apply (rejection_leaves_state
           (fst (exec emptyManager (CREATE "B" "Iago" "Cage" 3)))
           (ATTACK "Cage" "B" 0 0)).
  reflexivity.
Defined.

(** C10.  A create command with a known type code whose container is not
    Freedom and does not resolve (a fish for a cage, an unknown habitat)
    still prints the animal's greeting, then drops the animal: the manager
    is unchanged and no rejection line is printed. *)
Theorem create_inadmissible_greets_and_discards
        (m : Manager) (type n cont : string) (d : Z) (a : Animal) :
  makeAnimal type n d = Some a ->
  cont <> "Freedom"%string ->
  pickContainer cont type = None ->
  handleCreate m type n cont d = (m, [SayName n d]) /\
  existsb isRejection (snd (handleCreate m type n cont d)) = false.
Proof.
  intros Ha NF Hp. unfold handleCreate. rewrite Ha, Hp.
  apply String.eqb_neq in NF. rewrite NF.
  apply makeAnimal_Some in Ha. destruct Ha as (_ & <- & <- & _).
  split; reflexivity.
Qed.

Lemma create_inadmissible_greets_and_discards_witness :
  (handleCreate emptyManager "F" "Nemo" "Cage" 4
   = (emptyManager, [SayName "Nemo" 4]) /\
   existsb isRejection (snd (handleCreate emptyManager "F" "Nemo" "Cage" 4))
   = false) /\
  (handleCreate emptyManager "B" "Iago" "Zoo" 2
   = (emptyManager, [SayName "Iago" 2]) /\
   existsb isRejection (snd (handleCreate emptyManager "B" "Iago" "Zoo" 2))
   = false).
Proof.
  split.
  - apply (create_inadmissible_greets_and_discards
             emptyManager "F" "Nemo" "Cage" 4 (mkAnimal Fish "Nemo" 4));
      [reflexivity|discriminate|reflexivity].
  - apply (create_inadmissible_greets_and_discards
             emptyManager "B" "Iago" "Zoo" 2 (mkAnimal Bird "Iago" 2));
      [reflexivity|discriminate|reflexivity].
Defined.

(** ** Monsters live in Freedom only *)

(** C8.  After any sequence of commands from the empty manager, an animal
    found in a cage or aquarium container is not a monster. *)
Theorem no_monster_outside_freedom
        (cs : list Command) (r : ContainerRef) (a : Animal) :
  r <> RefFreedom -> In a (deref (run emptyManager cs) r) ->
  isMonster a = false.
Proof.
  intros NF Ha. apply (admits_not_monster r a NF).
  pose proof (run_wellTyped cs r) as F. cbn beta in F.
  rewrite Forall_forall in F. now apply F.
Qed.

Lemma no_monster_outside_freedom_witness :
  let cs := [CREATE "F" "Nemo" "Aquarium" 4;
             APPLY_SUBSTANCE "Aquarium" "F" 0] in
  In (mkAnimal BetterFish "Nemo" 2)
     (deref (run emptyManager cs) RefAquariumBetterFish) /\
  isMonster (mkAnimal BetterFish "Nemo" 2) = false.
Proof.
  split; [simpl; left; reflexivity|].
  apply (no_monster_outside_freedom
           [CREATE "F" "Nemo" "Aquarium" 4; APPLY_SUBSTANCE "Aquarium" "F" 0]
           RefAquariumBetterFish).
  - discriminate.
  - simpl. left. reflexivity.
Defined.

(** ** Applying substance: what is turned down *)


(** ** Sorted containers *)

(** C7.  After any sequence of commands every container is sorted by days,
    then by name.  The container operations that reorder ([add],
    [removeByIndex], [incrementDays]) do so by [update], which yields a
    sorted vector and keeps animals with equal days and equal names in the
    order they had. *)
Theorem containers_sorted_and_stable :
  (forall cs r, sortedByDaysThenName (deref (run emptyManager cs) r)) /\
  (forall l a d n,
      sortedByDaysThenName (ContainerBase.add l a) /\
      filter (sameKey d n) (ContainerBase.add l a)
      = filter (sameKey d n) (l ++ [a])) /\
  (forall l idx d n,
      0 <= idx < ContainerBase.size l ->
      sortedByDaysThenName (snd (ContainerBase.removeByIndex l idx)) /\
      filter (sameKey d n) (snd (ContainerBase.removeByIndex l idx))
      = filter (sameKey d n) (erase (Z.to_nat idx) l)) /\
  (forall l d n,
      sortedByDaysThenName (fst (ContainerBase.incrementDays l)) /\
      filter (sameKey d n) (fst (ContainerBase.incrementDays l))
      = filter (sameKey d n)
          (filter (fun a => negb (pastLimit a)) (map incrementDay l))).
Proof.
  split; [|split; [|split]].
  - intros cs r. apply (run_allSorted cs r).
  - intros l a d n. unfold ContainerBase.add.
    split; [apply ContainerFacts.update_sorted|].
    apply ContainerFacts.update_stable.
  - intros l idx d n H.
    rewrite OperationFacts.removeByIndex_in_range by exact H.
    split; [apply ContainerFacts.update_sorted|].
    apply ContainerFacts.update_stable.
  - intros l d n. rewrite OperationFacts.incrementDays_spec. cbn [fst].
    split; [apply ContainerFacts.update_sorted|].
    apply ContainerFacts.update_stable.
Qed.

Lemma containers_sorted_and_stable_witness :
  let l := [mkAnimal Bird "a" 2; mkAnimal Bird "z" 2; mkAnimal Mouse "a" 2] in
  0 <= 1 < ContainerBase.size l /\
  sortedByDaysThenName (snd (ContainerBase.removeByIndex l 1)) /\
  filter (sameKey 2 "a") (snd (ContainerBase.removeByIndex l 1))
  = filter (sameKey 2 "a") (erase (Z.to_nat 1) l).
Proof.
  split; [unfold ContainerBase.size; simpl; lia|].
  apply (proj1 (proj2 (proj2 containers_sorted_and_stable))).
  unfold ContainerBase.size. simpl. lia.
Defined.

(** ** Applying and removing substance: the transitions *)

Lemma isNormal_not_monster (a : Animal) : isNormal a = true -> isMonster a = false.
Proof. unfold isNormal, isMonster. now destruct (class a). Qed.

Lemma isBetter_not_normal (a : Animal) :
  isBetter a = true -> isNormal a = false /\ isMonster a = false.
Proof. unfold isBetter, isNormal, isMonster. now destruct (class a). Qed.

(** The path of [handleApplySubstance] for a normal animal. *)
Lemma handleApplySubstance_normal
      (m : Manager) (cont type : string) (pos : Z)
      (c cB : ContainerRef) (a better : Animal) :
  cont <> "Freedom"%string ->
  pickContainer cont type = Some c ->
  ContainerBase.get (deref m c) pos = Some a ->
  isNormal a = true ->
  betterOf a = Some better ->
  pickContainer cont (getTypeCode better) = Some cB ->
  handleApplySubstance m cont type pos =
  (addTo (assign m c (ContainerBase.update
                        (erase (Z.to_nat pos) (deref m c)))) cB better, []).
Proof.
  intros NF Hc Ha Hn Hb HcB. unfold handleApplySubstance.
  apply String.eqb_neq in NF. rewrite NF, Hc.
  pose proof (proj1 (OperationFacts.get_Some _ _ _) Ha) as [R _].
  rewrite (OperationFacts.guard_in_range _ _ R), Ha.
  rewrite (isNormal_not_monster a Hn), Hn, Hb, HcB.
  now rewrite (OperationFacts.removeByIndex_in_range _ _ R).
Qed.

(** The path of [handleApplySubstance] for a better animal. *)
Lemma handleApplySubstance_better
      (m : Manager) (cont type : string) (pos : Z)
      (c : ContainerRef) (a : Animal) :
  cont <> "Freedom"%string ->
  pickContainer cont type = Some c ->
  ContainerBase.get (deref m c) pos = Some a ->
  isBetter a = true ->
  handleApplySubstance m cont type pos =
  (addTo (assign m c []) RefFreedom (newMonster a),
   map deathReport
       (ContainerBase.update (erase (Z.to_nat pos) (deref m c)))).
Proof.
  intros NF Hc Ha Hb. unfold handleApplySubstance.
  apply String.eqb_neq in NF. rewrite NF, Hc.
  pose proof (proj1 (OperationFacts.get_Some _ _ _) Ha) as [R _].
  rewrite (OperationFacts.guard_in_range _ _ R), Ha.
  destruct (isBetter_not_normal a Hb) as [-> ->]. rewrite Hb.
  rewrite (OperationFacts.removeByIndex_in_range _ _ R).
  unfold ContainerBase.clear. rewrite deref_assign_same.
  f_equal. f_equal. now destruct c, m.
Qed.

(** The path of [handleRemoveSubstance] for a better animal. *)
Lemma handleRemoveSubstance_better
      (m : Manager) (cont type : string) (pos : Z)
      (c cN : ContainerRef) (a normal : Animal) :
  cont <> "Freedom"%string ->
  pickContainer cont type = Some c ->
  ContainerBase.get (deref m c) pos = Some a ->
  isBetter a = true ->
  normalOf a = Some normal ->
  pickContainer cont (getTypeCode normal) = Some cN ->
  handleRemoveSubstance m cont type pos =
  (addTo (assign m c (ContainerBase.update
                        (erase (Z.to_nat pos) (deref m c)))) cN normal, []).
Proof.
  intros NF Hc Ha Hb Hn HcN. unfold handleRemoveSubstance.
  apply String.eqb_neq in NF. rewrite NF, Hc.
  pose proof (proj1 (OperationFacts.get_Some _ _ _) Ha) as [R _].
  rewrite (OperationFacts.guard_in_range _ _ R), Ha, Hb. cbn [negb].
  rewrite Hn, HcN.
  now rewrite (OperationFacts.removeByIndex_in_range _ _ R).
Qed.

(** A normal animal in the container declared for it has a better form,
    whose container is that of the same habitat and species; the better
    form's normal form goes back to the container it came from. *)
Lemma better_container_exists
      (cont type : string) (c : ContainerRef) (a : Animal) :
  cont <> "Freedom"%string ->
  pickContainer cont type = Some c ->
  admits c a ->
  isNormal a = true ->
  exists better cB,
    betterOf a = Some better /\
    pickContainer cont (getTypeCode better) = Some cB /\
    elementClass cB = Some (class better) /\
    habitatOf cB = habitatOf c /\
    cB <> c /\
    normalOf better
    = Some (mkAnimal (class a) (name a) (wrap (daysLived better * 2))) /\
    pickContainer cont (getTypeCode a) = Some c.
Proof.
  intros NF Hc Ha Hn. apply pickContainer_Some in Hc.
  destruct a as [k n d]. unfold admits, isNormal in *.
  destruct c; cbn [elementClass class] in *; subst;
    try discriminate; try contradiction; destruct Hc as [-> ->];
    eexists; eexists; (split; [reflexivity|]);
    repeat (split; [reflexivity || discriminate|]); reflexivity.
Qed.

(** C1, as the code has it.  In any state the commands can reach, applying
    substance to a normal animal whose age [a] is an [int] below [INT_MAX],
    at a valid index of a cage or aquarium container, prints nothing, takes
    exactly that animal out of its container and adds to the better
    container of the same habitat and species exactly one animal: a better
    one of the same species and name whose age is [(a + 1) / 2] in the
    truncating division of C++.  That age is the ceiling of [a / 2] when
    [a] is not negative or is odd, and [a / 2 + 1] when [a] is negative and
    even.  No other container changes. *)
Theorem apply_normal_becomes_better
        (cs : list Command) (cont type : string) (pos : Z)
        (c : ContainerRef) (a : Animal) :
  let m := run emptyManager cs in
  cont <> "Freedom"%string ->
  pickContainer cont type = Some c ->
  ContainerBase.get (deref m c) pos = Some a ->
  isNormal a = true ->
  INT_MIN <= daysLived a < INT_MAX ->
  exists better cB,
    isBetter better = true /\
    speciesOf (class better) = speciesOf (class a) /\
    name better = name a /\
    daysLived better = Z.quot (daysLived a + 1) 2 /\
    (0 <= daysLived a \/ Z.odd (daysLived a) = true ->
     isCeilHalf (daysLived a) (daysLived better)) /\
    (daysLived a < 0 -> Z.even (daysLived a) = true ->
     daysLived better = daysLived a / 2 + 1) /\
    elementClass cB = Some (class better) /\
    habitatOf cB = habitatOf c /\
    snd (handleApplySubstance m cont type pos) = [] /\
    let m' := fst (handleApplySubstance m cont type pos) in
    deref m' c = erase (Z.to_nat pos) (deref m c) /\
    Permutation (a :: deref m' c) (deref m c) /\
    S (List.length (deref m' c)) = List.length (deref m c) /\
    deref m' cB = ContainerBase.add (deref m cB) better /\
    Permutation (deref m' cB) (better :: deref m cB) /\
    In better (deref m' cB) /\
    List.length (deref m' cB) = S (List.length (deref m cB)) /\
    forall r, r <> c -> r <> cB -> deref m' r = deref m r.
Proof.
  intros m NF Hc Ha Hn Hage.
  pose proof (run_wellTyped cs c) as T.
  pose proof (run_allSorted cs c) as Srt.
  fold m in T, Srt. cbn beta in T, Srt. clearbody m.
  rewrite Forall_forall in T.
  pose proof (T a (OperationFacts.get_In _ _ _ Ha)) as Adm.
  destruct (better_container_exists cont type c a NF Hc Adm Hn)
    as (better & cB & Hb & HcB & Hel & Hhab & NE & _ & _).
  exists better, cB.
  destruct (betterOf_Some a better Hb) as (_ & Bb & Sp & Nm & Dy).
  destruct (halved_age_int (daysLived a) Hage) as (Q1 & Q2 & Q3 & _).
  rewrite Q1 in Dy.
  rewrite (handleApplySubstance_normal m cont type pos c cB a better)
    by assumption.
  cbn [fst snd].
  rewrite (ContainerFacts.update_fixed _ (erase_sorted _ _ _ Srt)).
  pose proof (proj1 (OperationFacts.get_Some _ _ _) Ha) as [R Hnth].
  assert (Ec : deref (addTo (assign m c (erase (Z.to_nat pos) (deref m c)))
                            cB better) c
               = erase (Z.to_nat pos) (deref m c)).
  { unfold addTo. rewrite deref_assign_other by exact NE.
    apply deref_assign_same. }
  assert (EB : deref (addTo (assign m c (erase (Z.to_nat pos) (deref m c)))
                            cB better) cB
               = ContainerBase.add (deref m cB) better).
  { unfold addTo. rewrite deref_assign_same.
    now rewrite deref_assign_other by (intros E; apply NE; now symmetry). }
  rewrite Ec, EB.
  split; [exact Bb|]. split; [exact Sp|]. split; [exact Nm|].
  split; [exact Dy|]. split; [now rewrite Dy|]. split; [now rewrite Dy|].
  split; [exact Hel|]. split; [exact Hhab|]. split; [reflexivity|].
  split; [reflexivity|].
  split; [now apply erase_perm|].
  split; [apply erase_length; unfold ContainerBase.size in R; lia|].
  split; [reflexivity|].
  split.
  { unfold ContainerBase.add. rewrite ContainerFacts.update_perm.
    rewrite Permutation_app_comm. reflexivity. }
  split; [apply OperationFacts.add_In|].
  split.
  { unfold ContainerBase.add.
    rewrite ContainerFacts.update_length, length_app. cbn. lia. }
  intros r Hr HrB. unfold addTo.
  rewrite deref_assign_other by (intros E; apply HrB; now symmetry).
  now rewrite deref_assign_other by (intros E; apply Hr; now symmetry).
Qed.

Lemma apply_normal_becomes_better_witness :
  let m := run emptyManager [CREATE "M" "Jerry" "Cage" 9;
                             CREATE "M" "Mickey" "Cage" (-3)] in
  ContainerBase.get (deref m RefCageMouse) 0
  = Some (mkAnimal Mouse "Mickey" (-3))
  /\ INT_MIN <= -3 < INT_MAX
  /\ exists better,
      isBetter better = true /\ daysLived better = Z.quot (-3 + 1) 2 /\
      isCeilHalf (-3) (daysLived better) /\
      snd (handleApplySubstance m "Cage" "M" 0) = [] /\
      Permutation
        (mkAnimal Mouse "Mickey" (-3)
           :: deref (fst (handleApplySubstance m "Cage" "M" 0)) RefCageMouse)
        (deref m RefCageMouse).
Proof.
  split; [reflexivity|]. split; [unfold INT_MIN, INT_MAX; lia|].
  destruct (apply_normal_becomes_better
              [CREATE "M" "Jerry" "Cage" 9; CREATE "M" "Mickey" "Cage" (-3)]
              "Cage" "M" 0
              RefCageMouse (mkAnimal Mouse "Mickey" (-3)))
    as (better & cB & Hb & _ & _ & Hd & Hceil & _ & _ & _ & Hout & _ & Hperm
        & _).
  - discriminate.
  - reflexivity.
  - reflexivity.
  - reflexivity.
  - simpl. unfold INT_MIN, INT_MAX. lia.
  - exists better. split; [exact Hb|]. split; [exact Hd|].
    split; [apply Hceil; right; reflexivity|].
    split; [exact Hout|exact Hperm].
Defined.

(** C1, as the claim has it, fails at a negative even age.  The line
    "CREATE M Jerry IN Cage -2" is accepted; applying substance to that
    mouse gives a better mouse of age 0, which is not the ceiling of
    [-2 / 2]: the ceiling is -1. *)
Lemma apply_negative_even_age_not_ceiling :
  let m := run emptyManager [CREATE "M" "Jerry" "Cage" (-2)] in
  dispatch (tokens "CREATE M Jerry IN Cage -2")
  = Call (CREATE "M" "Jerry" "Cage" (-2)) /\
  ContainerBase.get (deref m RefCageMouse) 0
  = Some (mkAnimal Mouse "Jerry" (-2)) /\
  isNormal (mkAnimal Mouse "Jerry" (-2)) = true /\
  deref (fst (handleApplySubstance m "Cage" "M" 0)) RefCageBetterMouse
  = [mkAnimal BetterMouse "Jerry" 0] /\
  ~ isCeilHalf (-2) 0 /\
  isCeilHalf (-2) (-1).
Proof.
  repeat (split; [reflexivity|]). unfold isCeilHalf. split; lia.
Qed.



(** C2.  Applying substance to a better animal at a valid index of a cage
    or aquarium container creates a monster of the same name with age 1 and
    adds it to Freedom, prints one death line for every other animal of the
    container, in the container's order, and leaves the container empty;
    no third container changes. *)
Theorem apply_better_becomes_monster
        (m : Manager) (cont type : string) (pos : Z)
        (c : ContainerRef) (a : Animal) :
  cont <> "Freedom"%string ->
  pickContainer cont type = Some c ->
  ContainerBase.get (deref m c) pos = Some a ->
  isBetter a = true ->
  let others := ContainerBase.update (erase (Z.to_nat pos) (deref m c)) in
  let monster := mkAnimal Monster (name a) 1 in
  let m' := fst (handleApplySubstance m cont type pos) in
  Permutation (a :: others) (deref m c) /\
  snd (handleApplySubstance m cont type pos) = map deathReport others /\
  S (List.length (snd (handleApplySubstance m cont type pos)))
  = List.length (deref m c) /\
  deref m' c = [] /\
  deref m' RefFreedom = ContainerBase.add (deref m RefFreedom) monster /\
  In monster (deref m' RefFreedom) /\
  forall r, r <> c -> r <> RefFreedom -> deref m' r = deref m r.
Proof.
  intros NF Hc Ha Hb others monster m'.
  pose proof (pickContainer_not_Freedom cont type c NF Hc) as NE.
  assert (P : Permutation (a :: others) (deref m c)).
  { unfold others. rewrite ContainerFacts.update_perm.
    apply erase_perm. now apply OperationFacts.get_Some in Ha. }
  subst m'.
  rewrite (handleApplySubstance_better m cont type pos c a) by assumption.
  cbn [fst snd]. fold others. unfold addTo, newMonster. fold monster.
  split; [exact P|]. split; [reflexivity|].
  split; [rewrite length_map; apply (Permutation_length P)|].
  split; [now rewrite deref_assign_other, deref_assign_same by congruence|].
  rewrite deref_assign_same.
  rewrite (deref_assign_other m c RefFreedom) by exact NE.
  split; [reflexivity|]. split; [apply OperationFacts.add_In|].
  intros r Hr HrF.
  rewrite deref_assign_other by congruence.
  now rewrite deref_assign_other by congruence.
Qed.

Lemma apply_better_becomes_monster_witness :
  let m := run emptyManager [CREATE "BF" "Bruce" "Aquarium" 1;
                             CREATE "BF" "Nemo" "Aquarium" 2] in
  ContainerBase.get (deref m RefAquariumBetterFish) 1
  = Some (mkAnimal BetterFish "Nemo" 2) /\
  snd (handleApplySubstance m "Aquarium" "BF" 1)
  = map deathReport
        (ContainerBase.update (erase 1 (deref m RefAquariumBetterFish))) /\
  deref (fst (handleApplySubstance m "Aquarium" "BF" 1)) RefAquariumBetterFish
  = [].
Proof.
  split; [reflexivity|].
  pose proof (apply_better_becomes_monster
                (run emptyManager [CREATE "BF" "Bruce" "Aquarium" 1;
                                   CREATE "BF" "Nemo" "Aquarium" 2])
                "Aquarium" "BF" 1 RefAquariumBetterFish
                (mkAnimal BetterFish "Nemo" 2)) as H.
  destruct H as (_ & Hout & _ & Hempty & _).
  - discriminate.
  - reflexivity.
  - reflexivity.
  - reflexivity.
  - split; [exact Hout|exact Hempty].
Defined.

(** C3, as the code has it.  In any state the commands can reach, applying
    substance to a normal animal whose age [a] is an [int] below [INT_MAX]
    and then removing substance from the better animal that results,
    wherever it stands in its container, adds to the original container a
    normal animal of the same class and name with age [2 * ((a + 1) / 2)]
    in the truncating division of C++.  For [a] not negative that is twice
    the ceiling of [a / 2]: [a] when [a] is even and [a + 1] when [a] is
    odd.  For negative [a] it is [a + 2] when [a] is even and [a + 1] when
    [a] is odd. *)
Theorem substance_round_trip
        (cs : list Command) (cont type : string) (pos : Z)
        (c : ContainerRef) (a : Animal) :
  let m := run emptyManager cs in
  cont <> "Freedom"%string ->
  pickContainer cont type = Some c ->
  ContainerBase.get (deref m c) pos = Some a ->
  isNormal a = true ->
  INT_MIN <= daysLived a < INT_MAX ->
  let m1 := fst (handleApplySubstance m cont type pos) in
  let normal :=
    mkAnimal (class a) (name a) (2 * Z.quot (daysLived a + 1) 2) in
  exists better cB,
    isBetter better = true /\
    daysLived better = Z.quot (daysLived a + 1) 2 /\
    pickContainer cont (getTypeCode better) = Some cB /\
    (exists j, ContainerBase.get (deref m1 cB) j = Some better) /\
    (forall j,
        ContainerBase.get (deref m1 cB) j = Some better ->
        let m2 := fst (handleRemoveSubstance m1 cont (getTypeCode better) j) in
        snd (handleRemoveSubstance m1 cont (getTypeCode better) j) = [] /\
        deref m2 c = ContainerBase.add (deref m1 c) normal /\
        In normal (deref m2 c)) /\
    (0 <= daysLived a ->
     isCeilHalf (daysLived a) (Z.quot (daysLived a + 1) 2) /\
     daysLived normal
     = (if Z.even (daysLived a) then daysLived a else daysLived a + 1)) /\
    (daysLived a < 0 ->
     daysLived normal
     = (if Z.even (daysLived a) then daysLived a + 2 else daysLived a + 1)).
Proof.
  intros m NF Hc Ha Hn Hage m1 normal.
  pose proof (run_wellTyped cs c) as T.
  fold m in T. cbn beta in T. rewrite Forall_forall in T.
  pose proof (T a (OperationFacts.get_In _ _ _ Ha)) as Adm.
  subst m1. clearbody m. clear T.
  destruct (better_container_exists cont type c a NF Hc Adm Hn)
    as (better & cB & Hb & HcB & _ & _ & NE & Hback & HcN).
  exists better, cB.
  destruct (betterOf_Some a better Hb) as (_ & Bb & _ & _ & Dy).
  destruct (halved_age_int (daysLived a) Hage) as (Q1 & Q2 & _ & Q4 & Q5).
  rewrite Q1 in Dy.
  assert (Hnormal : normalOf better = Some normal).
  { rewrite Hback. unfold normal. rewrite Dy, Q5, Z.mul_comm. reflexivity. }
  rewrite (handleApplySubstance_normal m cont type pos c cB a better)
    by assumption.
  cbn [fst]. set (m0 := assign m c _).
  split; [exact Bb|]. split; [exact Dy|]. split; [exact HcB|].
  split; [|split; [|split]].
  - apply OperationFacts.In_get. unfold addTo.
    rewrite deref_assign_same. apply OperationFacts.add_In.
  - intros j Hj.
    rewrite (handleRemoveSubstance_better
               (addTo m0 cB better) cont (getTypeCode better) j cB c
               better normal) by assumption.
    cbn [fst snd]. split; [reflexivity|].
    set (m1 := addTo m0 cB better).
    assert (E : deref (addTo (assign m1 cB (ContainerBase.update
                                (erase (Z.to_nat j) (deref m1 cB)))) c normal) c
                = ContainerBase.add (deref m1 c) normal).
    { unfold addTo at 1. rewrite deref_assign_same.
      now rewrite (deref_assign_other _ cB c) by exact NE. }
    rewrite E. split; [reflexivity|apply OperationFacts.add_In].
  - intros P. split; [apply Q2; now left|].
    unfold normal. cbn [daysLived]. rewrite Q4.
    now destruct (Z.leb_spec 0 (daysLived a)); [|lia].
  - intros N. unfold normal. cbn [daysLived]. rewrite Q4.
    now destruct (Z.leb_spec 0 (daysLived a)); [lia|].
Qed.

Lemma substance_round_trip_witness :
  let m := run emptyManager [CREATE "B" "Iago" "Cage" 7] in
  ContainerBase.get (deref m RefCageBird) 0 = Some (mkAnimal Bird "Iago" 7) /\
  INT_MIN <= 7 < INT_MAX /\
  exists better cB,
    daysLived better = Z.quot (7 + 1) 2 /\
    (exists j,
        ContainerBase.get
          (deref (fst (handleApplySubstance m "Cage" "B" 0)) cB) j
        = Some better) /\
    2 * Z.quot (7 + 1) 2 = 7 + 1.
Proof.
  split; [reflexivity|]. split; [unfold INT_MIN, INT_MAX; lia|].
  destruct (substance_round_trip
              [CREATE "B" "Iago" "Cage" 7] "Cage" "B" 0
              RefCageBird (mkAnimal Bird "Iago" 7))
    as (better & cB & Hb & Hd & HcB & Hj & _ & Hpos & _).
  - discriminate.
  - reflexivity.
  - reflexivity.
  - reflexivity.
  - simpl. unfold INT_MIN, INT_MAX. lia.
  - exists better, cB. split; [exact Hd|]. split; [exact Hj|].
    apply Hpos. simpl. lia.
Defined.

(** C3, as the claim has it, fails at a negative even age.  The mouse
    created by "CREATE M Jerry IN Cage -2" becomes a better mouse of age 0
    and then a normal mouse of age 0: the round trip is not the identity at
    this even age, and 0 is not twice the ceiling of [-2 / 2], which
    is -2. *)
Lemma round_trip_negative_even_age :
  let m := run emptyManager [CREATE "M" "Jerry" "Cage" (-2)] in
  let m1 := fst (handleApplySubstance m "Cage" "M" 0) in
  let m2 := fst (handleRemoveSubstance m1 "Cage" "BM" 0) in
  dispatch (tokens "CREATE M Jerry IN Cage -2")
  = Call (CREATE "M" "Jerry" "Cage" (-2)) /\
  deref m RefCageMouse = [mkAnimal Mouse "Jerry" (-2)] /\
  deref m1 RefCageBetterMouse = [mkAnimal BetterMouse "Jerry" 0] /\
  deref m2 RefCageMouse = [mkAnimal Mouse "Jerry" 0] /\
  Z.even (-2) = true /\
  0 <> -2 /\
  isCeilHalf (-2) (-1) /\
  0 <> 2 * -1.
Proof.
  repeat (split; [reflexivity|]). unfold isCeilHalf.
  split; [lia|]. split; lia.
Qed.

(** ** A period *)

Lemma doPeriod_deref (m : Manager) (r : ContainerRef) :
  deref (fst (doPeriod m)) r = fst (ContainerBase.incrementDays (deref m r)).
Proof.
  unfold doPeriod, periodOrder. cbn [fold_left].
  rewrite !incrementDaysAt_fst. cbn [fst snd].
  destruct m, r; reflexivity.
Qed.

Lemma doPeriod_output (m : Manager) :
  snd (doPeriod m)
  = flat_map (fun r => snd (ContainerBase.incrementDays (deref m r)))
             periodOrder.
Proof.
  unfold doPeriod, periodOrder. cbn [fold_left].
  rewrite !incrementDaysAt_fst. cbn [fst snd flat_map].
  rewrite app_nil_r, <- !app_assoc. cbn [app].
  destruct m; reflexivity.
Qed.

(** C5.  When no age is at [INT_MAX], a period makes every animal of every
    container exactly one day older, prints one death line for each animal
    whose new age is past the limit of its stage (1 for a monster, 10 for
    the others), container by container in the order of [doPeriod], and
    keeps exactly the other animals, sorted.  A mouse created with 9 days is
    in its cage with 10 days after one period; the second period prints its
    death and leaves the cage empty. *)
Theorem period_ages_and_buries :
  (forall m : Manager,
      (forall r a, In a (deref m r) -> INT_MIN <= daysLived a < INT_MAX) ->
      (forall r,
          deref (fst (doPeriod m)) r
          = ContainerBase.update
              (filter (fun a => negb (pastLimit a))
                      (map olderByOne (deref m r)))) /\
      snd (doPeriod m)
      = flat_map (fun r => map deathReport
                               (filter pastLimit (map olderByOne (deref m r))))
                 periodOrder) /\
  (forall n : string,
      let born := run emptyManager [CREATE "M" n "Cage" 9] in
      deref (fst (doPeriod born)) RefCageMouse = [mkAnimal Mouse n 10] /\
      snd (doPeriod born) = [] /\
      deref (fst (doPeriod (fst (doPeriod born)))) RefCageMouse = [] /\
      snd (doPeriod (fst (doPeriod born))) = [HasDied n]).
Proof.
  split.
  - intros m Hm.
    assert (E : forall r, map incrementDay (deref m r)
                          = map olderByOne (deref m r)).
    { intros r. apply map_ext_in. intros a Ha.
      apply OperationFacts.incrementDay_olderByOne. eapply Hm, Ha. }
    split.
    + intros r.
      now rewrite doPeriod_deref, OperationFacts.incrementDays_spec, E.
    + rewrite doPeriod_output. apply flat_map_ext. intros r.
      now rewrite OperationFacts.incrementDays_spec, E.
  - intros n. repeat split.
Qed.

Lemma period_ages_and_buries_witness :
  let m := run emptyManager [CREATE "M" "Jerry" "Cage" 10;
                             CREATE "B" "Iago" "Cage" 3] in
  (forall r a, In a (deref m r) -> INT_MIN <= daysLived a < INT_MAX) /\
  deref (fst (doPeriod m)) RefCageBird = [mkAnimal Bird "Iago" 4] /\
  snd (doPeriod m) = [HasDied "Jerry"].
Proof.
  assert (H : forall r a,
             In a (deref (run emptyManager [CREATE "M" "Jerry" "Cage" 10;
                                            CREATE "B" "Iago" "Cage" 3]) r) ->
             INT_MIN <= daysLived a < INT_MAX).
  { intros r a. unfold INT_MIN, INT_MAX.
    destruct r; simpl; intros Ha; try contradiction;
      destruct Ha as [<-|[]]; simpl; lia. }
  split; [exact H|].
  destruct (proj1 period_ages_and_buries _ H) as [Hd Ho].
  split.
  - rewrite (Hd RefCageBird). reflexivity.
  - rewrite Ho. reflexivity.
Defined.

(** ** Attack *)

(** C6.  In any state the commands can reach, an attack in a cage or
    aquarium container with two valid, distinct indices prints the
    attacker's line, erases exactly the animal at the target index and
    leaves every other animal, the attacker among them, as it was and in the
    same order.  The attack prints "Animal not found" and changes nothing
    when the container does not resolve, an index is out of bounds, or the
    two indices are equal.  With "Freedom" as container it is always
    refused. *)
Theorem attack_removes_target_only :
  (forall (cs : list Command) (cont type : string) (p1 p2 : Z)
          (c : ContainerRef),
      let m := run emptyManager cs in
      cont <> "Freedom"%string ->
      pickContainer cont type = Some c ->
      0 <= p1 < ContainerBase.size (deref m c) ->
      0 <= p2 < ContainerBase.size (deref m c) ->
      p1 <> p2 ->
      exists attacker target,
        ContainerBase.get (deref m c) p1 = Some attacker /\
        ContainerBase.get (deref m c) p2 = Some target /\
        snd (handleAttack m cont type p1 p2)
        = [IsAttacking (getTypeName attacker)] /\
        let m' := fst (handleAttack m cont type p1 p2) in
        deref m' c = erase (Z.to_nat p2) (deref m c) /\
        Permutation (target :: deref m' c) (deref m c) /\
        ContainerBase.get (deref m' c) (if p1 <? p2 then p1 else p1 - 1)
        = Some attacker /\
        forall r, r <> c -> deref m' r = deref m r) /\
  (forall (m : Manager) (cont type : string) (p1 p2 : Z),
      cont <> "Freedom"%string ->
      pickContainer cont type = None \/
      (exists c, pickContainer cont type = Some c /\
                 (p1 < 0 \/ ContainerBase.size (deref m c) <= p1 \/
                  p2 < 0 \/ ContainerBase.size (deref m c) <= p2 \/
                  p1 = p2)) ->
      handleAttack m cont type p1 p2 = (m, [AnimalNotFound])) /\
  (forall (m : Manager) (type : string) (p1 p2 : Z),
      handleAttack m "Freedom" type p1 p2 = (m, [CannotAttackInFreedom]) /\
      exec m (ATTACK_FREEDOM p1 p2) = (m, [CannotAttackInFreedom])).
Proof.
  split; [|split].
  - intros cs cont type p1 p2 c m NF Hc R1 R2 NE.
    pose proof (run_allSorted cs c) as Srt. fold m in Srt. cbn beta in Srt.
    clearbody m.
    destruct (OperationFacts.get_in_range _ _ R1) as [attacker Ha].
    destruct (OperationFacts.get_in_range _ _ R2) as [target Ht].
    exists attacker, target.
    split; [exact Ha|]. split; [exact Ht|].
    unfold handleAttack. apply String.eqb_neq in NF. rewrite NF, Hc.
    cbn zeta.
    replace ((p1 <? 0) || (p1 >=? ContainerBase.size (deref m c))
             || (p2 <? 0) || (p2 >=? ContainerBase.size (deref m c))
             || (p1 =? p2)) with false
      by (destruct (Z.ltb_spec p1 0),
             (Z.geb_spec p1 (ContainerBase.size (deref m c))),
             (Z.ltb_spec p2 0),
             (Z.geb_spec p2 (ContainerBase.size (deref m c))),
             (Z.eqb_spec p1 p2); cbn [orb]; reflexivity || lia).
    rewrite Ha, Ht.
    cbn [fst snd]. split; [reflexivity|].
    rewrite (OperationFacts.removeByIndex_in_range _ _ R2).
    rewrite (ContainerFacts.update_fixed _ (erase_sorted _ _ _ Srt)).
    rewrite deref_assign_same.
    apply OperationFacts.get_Some in Ha, Ht.
    destruct Ha as [_ Ha], Ht as [_ Ht].
    split; [reflexivity|]. split; [now apply erase_perm|].
    split.
    + apply OperationFacts.get_Some.
      assert (L : S (List.length (erase (Z.to_nat p2) (deref m c)))
                  = List.length (deref m c)).
      { apply erase_length. unfold ContainerBase.size in R2. lia. }
      unfold ContainerBase.size in *.
      rewrite nth_error_erase.
      destruct (Z.ltb_spec p1 p2) as [Lt|Ge].
      * split; [lia|].
        destruct (Nat.ltb_spec (Z.to_nat p1) (Z.to_nat p2)); [exact Ha|lia].
      * split; [lia|].
        destruct (Nat.ltb_spec (Z.to_nat (p1 - 1)) (Z.to_nat p2)); [lia|].
        replace (S (Z.to_nat (p1 - 1))) with (Z.to_nat p1) by lia.
        exact Ha.
    + intros r Hr. apply deref_assign_other. congruence.
  - intros m cont type p1 p2 NF H. unfold handleAttack.
    apply String.eqb_neq in NF. rewrite NF.
    destruct H as [-> | (c & -> & H)]; [reflexivity|]. cbn zeta.
    set (sz := ContainerBase.size (deref m c)) in *.
    destruct (Z.ltb_spec p1 0), (Z.geb_spec p1 sz), (Z.ltb_spec p2 0),
      (Z.geb_spec p2 sz), (Z.eqb_spec p1 p2); cbn [orb];
      try reflexivity; lia.
  - intros m type p1 p2. split; reflexivity.
Qed.

Lemma attack_removes_target_only_witness :
  let m := run emptyManager [CREATE "B" "Zazu" "Cage" 5;
                             CREATE "B" "Iago" "Cage" 5] in
  (0 <= 0 < ContainerBase.size (deref m RefCageBird) /\
   0 <= 1 < ContainerBase.size (deref m RefCageBird) /\
   exists attacker target,
     ContainerBase.get (deref m RefCageBird) 0 = Some attacker /\
     ContainerBase.get (deref m RefCageBird) 1 = Some target /\
     deref (fst (handleAttack m "Cage" "B" 0 1)) RefCageBird
     = erase (Z.to_nat 1) (deref m RefCageBird)) /\
  handleAttack m "Cage" "B" 1 1 = (m, [AnimalNotFound]).
Proof.
  split.
  - split; [unfold ContainerBase.size; simpl; lia|].
    split; [unfold ContainerBase.size; simpl; lia|].
    destruct (proj1 attack_removes_target_only
                    [CREATE "B" "Zazu" "Cage" 5; CREATE "B" "Iago" "Cage" 5]
                    "Cage"%string "B"%string 0 1 RefCageBird)
      as (attacker & target & Ha & Ht & _ & He & _).
    + discriminate.
    + reflexivity.
    + unfold ContainerBase.size. simpl. lia.
    + unfold ContainerBase.size. simpl. lia.
    + lia.
    + exists attacker, target. repeat split; assumption.
  - apply (proj1 (proj2 attack_removes_target_only)); [discriminate|].
    right. exists RefCageBird. split; [reflexivity|].
    right. right. right. right. reflexivity.
Defined.

(** * Further properties of the engine *)

(** ** Managers as nine containers *)

Lemma manager_ext (m1 m2 : Manager) :
  (forall r, deref m1 r = deref m2 r) -> m1 = m2.
Proof.
  intros H. destruct m1, m2.
  pose proof (H RefCageBird). pose proof (H RefCageBetterBird).
  pose proof (H RefCageMouse). pose proof (H RefCageBetterMouse).
  pose proof (H RefAquariumFish). pose proof (H RefAquariumBetterFish).
  pose proof (H RefAquariumMouse). pose proof (H RefAquariumBetterMouse).
  pose proof (H RefFreedom). cbn in *. congruence.
Qed.

Lemma In_deref_assign (m : Manager) (r r' : ContainerRef)
      (c : ContainerBase.t) (a : Animal) :
  In a (deref (assign m r c) r') -> (r' = r /\ In a c) \/ In a (deref m r').
Proof.
  destruct (ContainerRef_eq_dec r r') as [<-|NE].
  - rewrite deref_assign_same. auto.
  - rewrite deref_assign_other by exact NE. auto.
Qed.

Lemma population_assign (m : Manager) (r : ContainerRef) (c : ContainerBase.t) :
  (population (assign m r c) + List.length (deref m r)
   = population m + List.length c)%nat.
Proof. destruct r, m; cbn; lia. Qed.

Lemma size_add (l : ContainerBase.t) (a : Animal) :
  List.length (ContainerBase.add l a) = S (List.length l).
Proof.
  unfold ContainerBase.add.
  rewrite ContainerFacts.update_length, length_app. cbn. lia.
Qed.

Lemma In_add (l : ContainerBase.t) (a x : Animal) :
  In x (ContainerBase.add l a) <-> In x l \/ x = a.
Proof.
  unfold ContainerBase.add. rewrite ContainerFacts.update_In, in_app_iff.
  cbn. intuition congruence.
Qed.

Lemma removeByIndex_incl (l : ContainerBase.t) (idx : Z) (x : Animal) :
  In x (snd (ContainerBase.removeByIndex l idx)) -> In x l.
Proof.
  unfold ContainerBase.removeByIndex.
  destruct ((idx <? 0) || (idx >=? ContainerBase.size l)); cbn [snd];
    [auto|].
  rewrite ContainerFacts.update_In. apply erase_incl.
Qed.

Lemma removeByIndex_length (l : ContainerBase.t) (idx : Z) :
  0 <= idx < ContainerBase.size l ->
  S (List.length (snd (ContainerBase.removeByIndex l idx))) = List.length l.
Proof.
  intros R. rewrite OperationFacts.removeByIndex_in_range by exact R.
  rewrite ContainerFacts.update_length. apply erase_length.
  unfold ContainerBase.size in R. lia.
Qed.

(** ** Talk *)

(** X1.  [handleTalk] never changes the manager.  It prints the name and
    days of the animal at the index when the container resolves, Freedom
    included, and the index is in bounds, and "Animal not found" in every
    other case; the Freedom form of the command is the general form with
    "Freedom" as container. *)
Theorem talk_reports_or_not_found
        (m : Manager) (cont type : string) (pos : Z) :
  fst (handleTalk m cont type pos) = m /\
  (forall c a,
      pickContainer cont type = Some c ->
      ContainerBase.get (deref m c) pos = Some a ->
      snd (handleTalk m cont type pos) = [SayName (name a) (daysLived a)]) /\
  (pickContainer cont type = None \/
   (exists c, pickContainer cont type = Some c /\
              ContainerBase.get (deref m c) pos = None) ->
   snd (handleTalk m cont type pos) = [AnimalNotFound]) /\
  exec m (TALK_FREEDOM pos) = handleTalk m "Freedom" type pos.
Proof.
  assert (Free : forall p,
             handleTalkFreedom m p
             = match ContainerBase.get (deref m RefFreedom) p with
               | Some a => (m, [sayName a])
               | None => (m, [AnimalNotFound])
               end).
  { intros p. unfold handleTalkFreedom, ContainerBase.get. cbn [deref].
    now destruct ((p <? 0) || (p >=? ContainerBase.size (freedom m))). }
  assert (Gen : handleTalk m cont type pos
                = match pickContainer cont type with
                  | None => (m, [AnimalNotFound])
                  | Some c =>
                      match ContainerBase.get (deref m c) pos with
                      | Some a => (m, [sayName a])
                      | None => (m, [AnimalNotFound])
                      end
                  end).
  { unfold handleTalk. rewrite Free. unfold pickContainer.
    destruct (cont =? "Freedom")%string; [reflexivity|].
    destruct (if (cont =? "Cage")%string then _ else _) as [c|];
      [|reflexivity].
    unfold ContainerBase.get.
    now destruct ((pos <? 0) || (pos >=? ContainerBase.size (deref m c))). }
  split; [|split; [|split]].
  - rewrite Gen. destruct (pickContainer cont type) as [c|]; [|reflexivity].
    now destruct (ContainerBase.get (deref m c) pos).
  - intros c a Hc Ha. now rewrite Gen, Hc, Ha.
  - intros [Hc | (c & Hc & Ha)]; rewrite Gen, Hc; [reflexivity|].
    now rewrite Ha.
  - cbn [exec]. unfold handleTalk. reflexivity.
Qed.

Lemma talk_reports_or_not_found_witness :
  let m := run emptyManager [CREATE "BM" "Jerry" "Freedom" 3] in
  ContainerBase.get (deref m RefFreedom) 0
  = Some (mkAnimal BetterMouse "Jerry" 3) /\
  snd (handleTalk m "Freedom" "M" 0) = [SayName "Jerry" 3] /\
  ContainerBase.get (deref m RefFreedom) 1 = None /\
  snd (handleTalk m "Freedom" "M" 1) = [AnimalNotFound].
Proof.
  split; [reflexivity|]. split; [|split; [reflexivity|]].
  - apply (proj1 (proj2 (talk_reports_or_not_found
                           (run emptyManager [CREATE "BM" "Jerry" "Freedom" 3])
                           "Freedom" "M" 0))
             RefFreedom (mkAnimal BetterMouse "Jerry" 3));
      reflexivity.
  - apply (proj1 (proj2 (proj2 (talk_reports_or_not_found
                           (run emptyManager [CREATE "BM" "Jerry" "Freedom" 3])
                           "Freedom" "M" 1)))).
    right. exists RefFreedom. split; reflexivity.
Defined.

(** ** Removing substance *)

(** X2.  [handleRemoveSubstance] changes nothing and prints one line when
    it turns a command down: the Freedom refusal for "Freedom", "Animal not
    found" when the container does not resolve or the index is out of
    bounds, and "Invalid substance removal" when the animal at the index is
    not a better one. *)
Theorem remove_substance_rejections
        (m : Manager) (cont type : string) (pos : Z) :
  handleRemoveSubstance m "Freedom" type pos = (m, [CannotRemoveInFreedom]) /\
  (cont <> "Freedom"%string ->
   pickContainer cont type = None \/
   (exists c, pickContainer cont type = Some c /\
              (pos < 0 \/ ContainerBase.size (deref m c) <= pos)) ->
   handleRemoveSubstance m cont type pos = (m, [AnimalNotFound])) /\
  (forall c a,
      cont <> "Freedom"%string ->
      pickContainer cont type = Some c ->
      ContainerBase.get (deref m c) pos = Some a ->
      isBetter a = false ->
      handleRemoveSubstance m cont type pos = (m, [InvalidSubstanceRemoval])).
Proof.
  split; [reflexivity|]. split.
  - intros NF H. unfold handleRemoveSubstance.
    apply String.eqb_neq in NF. rewrite NF.
    destruct H as [-> | (c & -> & H)]; [reflexivity|].
    now rewrite OperationFacts.guard_out_of_range by lia.
  - intros c a NF Hc Ha Hb. unfold handleRemoveSubstance.
    apply String.eqb_neq in NF. rewrite NF, Hc.
    pose proof (proj1 (OperationFacts.get_Some _ _ _) Ha) as [R _].
    now rewrite (OperationFacts.guard_in_range _ _ R), Ha, Hb.
Qed.

Lemma remove_substance_rejections_witness :
  let m := run emptyManager [CREATE "B" "Iago" "Cage" 3] in
  handleRemoveSubstance m "Cage" "B" 4 = (m, [AnimalNotFound]) /\
  ContainerBase.get (deref m RefCageBird) 0 = Some (mkAnimal Bird "Iago" 3) /\
  handleRemoveSubstance m "Cage" "B" 0 = (m, [InvalidSubstanceRemoval]).
Proof.
  split; [|split; [reflexivity|]].
  - apply (proj1 (proj2 (remove_substance_rejections
                           (run emptyManager [CREATE "B" "Iago" "Cage" 3])
                           "Cage" "B" 4))); [discriminate|].
    right. exists RefCageBird. split; [reflexivity|].
    right. unfold ContainerBase.size. simpl. lia.
  - apply (proj2 (proj2 (remove_substance_rejections
                           (run emptyManager [CREATE "B" "Iago" "Cage" 3])
                           "Cage" "B" 0))
             RefCageBird (mkAnimal Bird "Iago" 3));
      [discriminate|reflexivity|reflexivity|reflexivity].
Defined.

(** A better animal in the container declared for it has a normal form,
    whose container is that of the same habitat and species. *)
Lemma normal_container_exists
      (cont type : string) (c : ContainerRef) (a : Animal) :
  cont <> "Freedom"%string ->
  pickContainer cont type = Some c ->
  admits c a ->
  isBetter a = true ->
  exists normal cN,
    normalOf a = Some normal /\
    pickContainer cont (getTypeCode normal) = Some cN /\
    elementClass cN = Some (class normal) /\
    habitatOf cN = habitatOf c /\
    cN <> c.
Proof.
  intros NF Hc Ha Hb. apply pickContainer_Some in Hc.
  destruct a as [k n d]. unfold admits, isBetter in *.
  destruct c; cbn [elementClass class] in *; subst;
    try discriminate; try contradiction; destruct Hc as [-> ->];
    eexists; eexists; (split; [reflexivity|]);
    repeat (split; [reflexivity || discriminate|]); discriminate.
Qed.

(** X3.  In any state the commands can reach, removing substance from a
    better animal of age [b] at a valid index of a cage or aquarium
    container, [2 * b] being an [int], prints nothing, takes exactly that
    animal out of its container and adds to the normal container of the
    same habitat and species exactly one animal: a normal one of the same
    species and name with age [2 * b]; no other container changes. *)
Theorem remove_better_becomes_normal
        (cs : list Command) (cont type : string) (pos : Z)
        (c : ContainerRef) (a : Animal) :
  let m := run emptyManager cs in
  cont <> "Freedom"%string ->
  pickContainer cont type = Some c ->
  ContainerBase.get (deref m c) pos = Some a ->
  isBetter a = true ->
  INT_MIN <= 2 * daysLived a <= INT_MAX ->
  exists normal cN,
    isNormal normal = true /\
    speciesOf (class normal) = speciesOf (class a) /\
    name normal = name a /\
    daysLived normal = 2 * daysLived a /\
    elementClass cN = Some (class normal) /\
    habitatOf cN = habitatOf c /\
    snd (handleRemoveSubstance m cont type pos) = [] /\
    let m' := fst (handleRemoveSubstance m cont type pos) in
    deref m' c = erase (Z.to_nat pos) (deref m c) /\
    Permutation (a :: deref m' c) (deref m c) /\
    S (List.length (deref m' c)) = List.length (deref m c) /\
    deref m' cN = ContainerBase.add (deref m cN) normal /\
    Permutation (deref m' cN) (normal :: deref m cN) /\
    In normal (deref m' cN) /\
    List.length (deref m' cN) = S (List.length (deref m cN)) /\
    forall r, r <> c -> r <> cN -> deref m' r = deref m r.
Proof.
  intros m NF Hc Ha Hb Hage.
  pose proof (run_wellTyped cs c) as T.
  pose proof (run_allSorted cs c) as Srt.
  fold m in T, Srt. cbn beta in T, Srt. clearbody m.
  rewrite Forall_forall in T.
  pose proof (T a (OperationFacts.get_In _ _ _ Ha)) as Adm.
  destruct (normal_container_exists cont type c a NF Hc Adm Hb)
    as (normal & cN & Hn & HcN & Hel & Hhab & NE).
  exists normal, cN.
  destruct (normalOf_Some a normal Hn) as (_ & Nn & Sp & Nm & Dy).
  rewrite wrap_id in Dy by (unfold INT_MAX, INT_MIN in *; lia).
  rewrite (handleRemoveSubstance_better m cont type pos c cN a normal)
    by assumption.
  cbn [fst snd].
  rewrite (ContainerFacts.update_fixed _ (erase_sorted _ _ _ Srt)).
  pose proof (proj1 (OperationFacts.get_Some _ _ _) Ha) as [R Hnth].
  assert (Ec : deref (addTo (assign m c (erase (Z.to_nat pos) (deref m c)))
                            cN normal) c
               = erase (Z.to_nat pos) (deref m c)).
  { unfold addTo. rewrite deref_assign_other by exact NE.
    apply deref_assign_same. }
  assert (EN : deref (addTo (assign m c (erase (Z.to_nat pos) (deref m c)))
                            cN normal) cN
               = ContainerBase.add (deref m cN) normal).
  { unfold addTo. rewrite deref_assign_same.
    now rewrite deref_assign_other by (intros E; apply NE; now symmetry). }
  rewrite Ec, EN.
  split; [exact Nn|]. split; [exact Sp|]. split; [exact Nm|].
  split; [lia|]. split; [exact Hel|]. split; [exact Hhab|].
  split; [reflexivity|]. split; [reflexivity|].
  split; [now apply erase_perm|].
  split; [apply erase_length; unfold ContainerBase.size in R; lia|].
  split; [reflexivity|].
  split.
  { unfold ContainerBase.add. rewrite ContainerFacts.update_perm.
    rewrite Permutation_app_comm. reflexivity. }
  split; [apply OperationFacts.add_In|]. split; [apply size_add|].
  intros r Hr HrN. unfold addTo.
  rewrite deref_assign_other by (intros E; apply HrN; now symmetry).
  now rewrite deref_assign_other by (intros E; apply Hr; now symmetry).
Qed.

Lemma remove_better_becomes_normal_witness :
  let m := run emptyManager [CREATE "BF" "Nemo" "Aquarium" 3] in
  ContainerBase.get (deref m RefAquariumBetterFish) 0
  = Some (mkAnimal BetterFish "Nemo" 3) /\
  INT_MIN <= 2 * 3 <= INT_MAX /\
  exists normal,
    isNormal normal = true /\ daysLived normal = 2 * 3 /\
    snd (handleRemoveSubstance m "Aquarium" "BF" 0) = [] /\
    S (List.length
         (deref (fst (handleRemoveSubstance m "Aquarium" "BF" 0))
                RefAquariumBetterFish))
    = List.length (deref m RefAquariumBetterFish).
Proof.
  split; [reflexivity|]. split; [unfold INT_MIN, INT_MAX; lia|].
  destruct (remove_better_becomes_normal
              [CREATE "BF" "Nemo" "Aquarium" 3] "Aquarium" "BF" 0
              RefAquariumBetterFish (mkAnimal BetterFish "Nemo" 3))
    as (normal & cN & Hn & _ & _ & Hd & _ & _ & Hout & _ & _ & Hlen & _).
  - discriminate.
  - reflexivity.
  - reflexivity.
  - reflexivity.
  - simpl. unfold INT_MIN, INT_MAX. lia.
  - exists normal. split; [exact Hn|]. split; [exact Hd|].
    split; [exact Hout|exact Hlen].
Defined.

(** ** Creating animals *)

(** X4.  A create command with one of the six type codes whose container
    resolves, Freedom included, prints the greeting with the name and days
    given and adds exactly one animal with that name, those days (a better
    code is not halved) and that type code to the resolved container; the
    container grows by one and no other container changes. *)
Theorem create_adds_one_animal
        (m : Manager) (type n cont : string) (d : Z)
        (a : Animal) (c : ContainerRef) :
  makeAnimal type n d = Some a ->
  pickContainer cont type = Some c ->
  name a = n /\ daysLived a = d /\ getTypeCode a = type /\
  snd (handleCreate m type n cont d) = [SayName n d] /\
  let m' := fst (handleCreate m type n cont d) in
  deref m' c = ContainerBase.add (deref m c) a /\
  In a (deref m' c) /\
  List.length (deref m' c) = S (List.length (deref m c)) /\
  forall r, r <> c -> deref m' r = deref m r.
Proof.
  intros Ha Hc.
  destruct (makeAnimal_Some type n d a Ha) as (Ht & Hn & Hd & _).
  assert (E : handleCreate m type n cont d = (addTo m c a, [SayName n d])).
  { unfold handleCreate. rewrite Ha, Hc. unfold sayName. rewrite Hn, Hd.
    destruct (String.eqb_spec cont "Freedom") as [->|NF]; [|reflexivity].
    cbn in Hc. now injection Hc as <-. }
  rewrite E. cbn [fst snd]. unfold addTo. rewrite deref_assign_same.
  repeat (split; [assumption || reflexivity|]).
  split; [apply OperationFacts.add_In|]. split; [apply size_add|].
  intros r Hr. apply deref_assign_other. congruence.
Qed.

Lemma create_adds_one_animal_witness :
  snd (handleCreate emptyManager "BB" "Iago" "Freedom" 8) = [SayName "Iago" 8]
  /\ In (mkAnimal BetterBird "Iago" 8)
        (deref (fst (handleCreate emptyManager "BB" "Iago" "Freedom" 8))
               RefFreedom).
Proof.
  destruct (create_adds_one_animal
              emptyManager "BB" "Iago" "Freedom" 8
              (mkAnimal BetterBird "Iago" 8) RefFreedom)
    as (_ & _ & _ & Hout & _ & Hin & _).
  - reflexivity.
  - reflexivity.
  - split; [exact Hout|exact Hin].
Defined.

(** X5.  A create command whose type code is none of M, B, F, BM, BB, BF
    is dropped without a line and without a change, whatever the container:
    in particular no monster can be created. *)
Theorem create_unknown_code_is_ignored
        (m : Manager) (type n cont : string) (d : Z) :
  ~ In type creationCodes ->
  handleCreate m type n cont d = (m, []).
Proof.
  intros H. unfold handleCreate, makeAnimal.
  repeat match goal with
         | |- context [String.eqb ?x ?y] =>
             destruct (String.eqb_spec x y) as [->|?]
         end;
    try reflexivity; exfalso; apply H; cbn; tauto.
Qed.

Lemma create_unknown_code_is_ignored_witness :
  handleCreate emptyManager "MONSTER" "Rex" "Freedom" 1 = (emptyManager, []).
Proof.
  apply create_unknown_code_is_ignored.
  cbn. intros [H|[H|[H|[H|[H|[H|[]]]]]]]; discriminate.
Defined.

(** ** Resolving containers *)

(** X6.  [pickContainer], asked with an animal's own type code, yields a
    container exactly when the name given is that of the container's
    habitat and the container is declared for the animal's class (Freedom
    is declared for every class).  So a mouse resolves in a cage and in an
    aquarium, a fish in no cage, a bird in no aquarium, and a monster only
    in Freedom. *)
Theorem pickContainer_by_own_code
        (cont : string) (a : Animal) (r : ContainerRef) :
  pickContainer cont (getTypeCode a) = Some r <->
  cont = habitatName (habitatOf r) /\ admits r a.
Proof.
  split.
  - intros H. split; [|now apply pickContainer_admits in H].
    apply pickContainer_Some in H. destruct r; cbn; tauto.
  - intros [-> Ha]. unfold admits, getTypeCode in *.
    destruct r; cbn [elementClass habitatOf habitatName] in *;
      try rewrite Ha; reflexivity.
Qed.

(** ** What the containers hold *)

(** X7.  After any sequence of commands, every animal of a cage or
    aquarium container is of the very class the container is declared for:
    a bird cage holds only normal birds, a better-fish aquarium only better
    fish, and so on. *)
Theorem containers_hold_declared_class
        (cs : list Command) (r : ContainerRef) (k : Class) (a : Animal) :
  elementClass r = Some k ->
  In a (deref (run emptyManager cs) r) ->
  class a = k.
Proof.
  intros Hk Ha. pose proof (run_wellTyped cs r) as F. cbn beta in F.
  rewrite Forall_forall in F. specialize (F a Ha).
  unfold admits in F. now rewrite Hk in F.
Qed.

Lemma containers_hold_declared_class_witness :
  let cs := [CREATE "M" "Jerry" "Aquarium" 4;
             APPLY_SUBSTANCE "Aquarium" "M" 0] in
  In (mkAnimal BetterMouse "Jerry" 2)
     (deref (run emptyManager cs) RefAquariumBetterMouse) /\
  class (mkAnimal BetterMouse "Jerry" 2) = BetterMouse.
Proof.
  split; [simpl; left; reflexivity|].
  apply (containers_hold_declared_class
           [CREATE "M" "Jerry" "Aquarium" 4; APPLY_SUBSTANCE "Aquarium" "M" 0]
           RefAquariumBetterMouse).
  - reflexivity.
  - simpl. left. reflexivity.
Defined.

(** ** After a period *)

(** X8.  Whatever the manager held, after [doPeriod] no animal of any
    container is past the limit of its stage: a monster has at most 1 day,
    every other animal at most 10. *)
Theorem after_period_nobody_past_limit
        (m : Manager) (r : ContainerRef) (a : Animal) :
  In a (deref (fst (doPeriod m)) r) ->
  pastLimit a = false /\
  daysLived a <= 10 /\
  (isMonster a = true -> daysLived a <= 1).
Proof.
  rewrite doPeriod_deref, OperationFacts.incrementDays_spec. cbn [fst].
  rewrite ContainerFacts.update_In, filter_In. intros [_ H].
  apply negb_true_iff in H. split; [exact H|].
  unfold pastLimit in H. destruct (isMonster a).
  - rewrite Z.gtb_ltb in H. apply Z.ltb_ge in H. split; [lia|auto].
  - rewrite Z.gtb_ltb in H. apply Z.ltb_ge in H. split; [lia|discriminate].
Qed.

Lemma after_period_nobody_past_limit_witness :
  let m := run emptyManager [CREATE "B" "Iago" "Cage" 9] in
  In (mkAnimal Bird "Iago" 10) (deref (fst (doPeriod m)) RefCageBird) /\
  pastLimit (mkAnimal Bird "Iago" 10) = false.
Proof.
  split; [simpl; left; reflexivity|].
  apply (after_period_nobody_past_limit
           (run emptyManager [CREATE "B" "Iago" "Cage" 9]) RefCageBird).
  simpl. left. reflexivity.
Defined.

Lemma pickContainer_by_own_code_witness :
  pickContainer "Aquarium" (getTypeCode (mkAnimal Mouse "Jerry" 2))
  = Some RefAquariumMouse.
Proof.
  apply (proj2 (pickContainer_by_own_code
                  "Aquarium" (mkAnimal Mouse "Jerry" 2) RefAquariumMouse)).
  split; reflexivity.
Defined.

(** ** Properties of single animals kept by the commands *)

(** A property [P] of animals that the constructors of the handlers
    establish and that ageing keeps for those who survive holds of every
    animal after every command, if it holds of the animals the command
    creates. *)
Section AnimalInvariant.
Variable P : Animal -> Prop.
Hypothesis P_better : forall a b, P a -> betterOf a = Some b -> P b.
Hypothesis P_normal : forall a b, P a -> normalOf a = Some b -> P b.
Hypothesis P_monster : forall a, P a -> isBetter a = true -> P (newMonster a).
Hypothesis P_age : forall a,
    P a -> pastLimit (incrementDay a) = false -> P (incrementDay a).

Lemma allP_assign (m : Manager) (r : ContainerRef) (c : ContainerBase.t) :
  allP P m -> Forall P c -> allP P (assign m r c).
Proof.
  intros Hm Hc r'. destruct (ContainerRef_eq_dec r r') as [<-|NE].
  - now rewrite deref_assign_same.
  - rewrite deref_assign_other by exact NE. apply Hm.
Qed.

Lemma allP_addTo (m : Manager) (r : ContainerRef) (a : Animal) :
  allP P m -> P a -> allP P (addTo m r a).
Proof.
  intros Hm Ha. apply allP_assign; [exact Hm|].
  apply OperationFacts.add_Forall; [apply Hm|exact Ha].
Qed.

Lemma allP_removed (m : Manager) (r : ContainerRef) (idx : Z) :
  allP P m ->
  allP P (assign m r (snd (ContainerBase.removeByIndex (deref m r) idx))).
Proof.
  intros Hm. apply allP_assign; [exact Hm|].
  apply OperationFacts.removeByIndex_Forall, Hm.
Qed.

Lemma allP_get (m : Manager) (r : ContainerRef) (idx : Z) (a : Animal) :
  allP P m -> ContainerBase.get (deref m r) idx = Some a -> P a.
Proof.
  intros Hm Ha. apply OperationFacts.get_In in Ha.
  specialize (Hm r). cbn beta in Hm. rewrite Forall_forall in Hm. auto.
Qed.

Lemma allP_handleCreate m type n cont d :
  (forall a, makeAnimal type n d = Some a -> P a) ->
  allP P m -> allP P (fst (handleCreate m type n cont d)).
Proof.
  intros Hc Hm. unfold handleCreate.
  destruct (makeAnimal type n d) as [a|]; [|exact Hm].
  specialize (Hc a eq_refl).
  split_handler; auto using allP_addTo.
Qed.

Lemma allP_handleApplySubstance m cont type pos :
  allP P m -> allP P (fst (handleApplySubstance m cont type pos)).
Proof.
  intros Hm. unfold handleApplySubstance, handleApplySubstanceFreedom.
  unfold ContainerBase.clear.
  split_handler; auto using allP_removed;
    match goal with
    | H : ContainerBase.get _ _ = Some ?a |- _ =>
        pose proof (allP_get _ _ _ _ Hm H) as Pa
    end.
  - apply allP_addTo; [now apply allP_removed|]. eauto.
  - apply allP_addTo; [|now apply P_monster].
    apply allP_assign; [now apply allP_removed|constructor].
Qed.

Lemma allP_handleRemoveSubstance m cont type pos :
  allP P m -> allP P (fst (handleRemoveSubstance m cont type pos)).
Proof.
  intros Hm. unfold handleRemoveSubstance, handleRemoveSubstanceFreedom.
  split_handler; auto using allP_removed.
  match goal with
  | H : ContainerBase.get _ _ = Some ?a |- _ =>
      pose proof (allP_get _ _ _ _ Hm H) as Pa
  end.
  apply allP_addTo; [now apply allP_removed|]. eauto.
Qed.

Lemma allP_handleAttack m cont type p1 p2 :
  allP P m -> allP P (fst (handleAttack m cont type p1 p2)).
Proof.
  intros Hm. unfold handleAttack, handleAttackFreedom.
  split_handler; auto using allP_removed.
Qed.

Lemma allP_incrementDays (l : ContainerBase.t) :
  Forall P l -> Forall P (fst (ContainerBase.incrementDays l)).
Proof.
  intros F. rewrite OperationFacts.incrementDays_spec. cbn [fst].
  eapply Permutation_Forall; [symmetry; apply ContainerFacts.update_perm|].
  rewrite Forall_forall in *. intros a Ha.
  apply filter_In in Ha. destruct Ha as [Ha Hl].
  apply in_map_iff in Ha. destruct Ha as [b [<- Hb]].
  apply negb_true_iff in Hl. auto.
Qed.

Lemma allP_doPeriod m : allP P m -> allP P (fst (doPeriod m)).
Proof.
  intros Hm r. rewrite doPeriod_deref. apply allP_incrementDays, Hm.
Qed.

Lemma allP_exec (m : Manager) (c : Command) :
  (forall type n cont d a,
      c = CREATE type n cont d -> makeAnimal type n d = Some a -> P a) ->
  allP P m -> allP P (fst (exec m c)).
Proof.
  intros Hc Hm.
  destruct c; cbn [exec];
    auto using allP_handleApplySubstance, allP_handleRemoveSubstance,
      allP_handleAttack, allP_doPeriod.
  - apply allP_handleCreate; [|exact Hm]. intros a. now apply Hc with container.
  - unfold handleTalkFreedom. split_handler; exact Hm.
  - unfold handleTalk, handleTalkFreedom. split_handler; exact Hm.
Qed.

Lemma allP_run (m : Manager) (cs : list Command) :
  (forall type n cont d a,
      In (CREATE type n cont d) cs -> makeAnimal type n d = Some a -> P a) ->
  allP P m -> allP P (run m cs).
Proof.
  unfold run. revert m.
  induction cs as [|c cs IH]; intros m Hc Hm; [exact Hm|].
  cbn [fold_left]. apply IH.
  - intros type n cont d a Hin. apply (Hc type n cont d a). now right.
  - apply allP_exec; [|exact Hm].
    intros type n cont d a ->. apply (Hc type n cont d a). now left.
Qed.
End AnimalInvariant.

Lemma run_app (m : Manager) (cs1 cs2 : list Command) :
  run m (cs1 ++ cs2) = run (run m cs1) cs2.
Proof. unfold run. apply fold_left_app. Qed.

Lemma In_after_period (m : Manager) (r : ContainerRef) (a : Animal) :
  In a (deref (fst (doPeriod m)) r) ->
  pastLimit a = false /\ exists b, In b (deref m r) /\ a = incrementDay b.
Proof.
  rewrite doPeriod_deref, OperationFacts.incrementDays_spec. cbn [fst].
  rewrite ContainerFacts.update_In, filter_In, in_map_iff.
  intros [(b & <- & Hb) Hl]. apply negb_true_iff in Hl. eauto.
Qed.

(** ** Monsters *)

(** X9.  After any sequence of commands every monster has exactly 1 day
    and stands in Freedom; and when the last command was a period, no
    container holds a monster: a monster is gone with the first period
    after its birth. *)
Theorem monsters_last_one_period :
  (forall cs r a,
      In a (deref (run emptyManager cs) r) -> isMonster a = true ->
      daysLived a = 1 /\ r = RefFreedom) /\
  (forall cs r a,
      In a (deref (run emptyManager (cs ++ [PERIOD])) r) ->
      isMonster a = false).
Proof.
  assert (Age : forall cs r a,
             In a (deref (run emptyManager cs) r) -> isMonster a = true ->
             daysLived a = 1).
  { intros cs r a Ha.
    assert (H : allP (fun a => isMonster a = true -> daysLived a = 1)
                     (run emptyManager cs)).
    { apply allP_run.
      - intros x y _ Hb. apply betterOf_Some in Hb.
        destruct Hb as (_ & Hb & _). unfold isBetter, isMonster in *.
        destruct (class y); discriminate.
      - intros x y _ Hn. apply normalOf_Some in Hn.
        destruct Hn as (_ & Hn & _). unfold isNormal, isMonster in *.
        destruct (class y); discriminate.
      - reflexivity.
      - intros x Hx Hl Hm. unfold pastLimit in Hl. rewrite Hm in Hl.
        change (isMonster x = true) in Hm. specialize (Hx Hm).
        unfold incrementDay in Hl. cbn [setDaysLived daysLived] in Hl.
        rewrite Hx in Hl. discriminate.
      - intros type n cont d x _ Hx. apply makeAnimal_Some in Hx.
        destruct Hx as (_ & _ & _ & Hx). congruence.
      - apply emptyManager_everywhere. constructor. }
    specialize (H r). cbn beta in H. rewrite Forall_forall in H. auto. }
  split.
  - intros cs r a Ha Hm. split; [eauto|].
    destruct (ContainerRef_eq_dec r RefFreedom) as [E|NE]; [exact E|].
    pose proof (run_wellTyped cs r) as F. cbn beta in F.
    rewrite Forall_forall in F.
    rewrite (admits_not_monster r a NE (F a Ha)) in Hm. discriminate.
  - intros cs r a Ha. rewrite run_app in Ha.
    change (run (run emptyManager cs) [PERIOD])
      with (fst (doPeriod (run emptyManager cs))) in Ha.
    apply In_after_period in Ha. destruct Ha as (Hl & b & Hb & ->).
    destruct (isMonster (incrementDay b)) eqn:Hm; [|reflexivity].
    change (isMonster b = true) in Hm.
    unfold pastLimit in Hl. change (isMonster (incrementDay b))
      with (isMonster b) in Hl. rewrite Hm in Hl.
    unfold incrementDay in Hl. cbn [setDaysLived daysLived] in Hl.
    rewrite (Age cs r b Hb Hm) in Hl. discriminate.
Qed.

Lemma monsters_last_one_period_witness :
  let cs := [CREATE "BF" "Nemo" "Aquarium" 2;
             APPLY_SUBSTANCE "Aquarium" "BF" 0] in
  In (mkAnimal Monster "Nemo" 1) (deref (run emptyManager cs) RefFreedom) /\
  (daysLived (mkAnimal Monster "Nemo" 1) = 1 /\ RefFreedom = RefFreedom).
Proof.
  split; [simpl; left; reflexivity|].
  apply (proj1 monsters_last_one_period
               [CREATE "BF" "Nemo" "Aquarium" 2;
                APPLY_SUBSTANCE "Aquarium" "BF" 0]).
  - simpl. left. reflexivity.
  - reflexivity.
Defined.

(** ** Where animals come from *)

Lemma carriesOn_refl (a : Animal) : carriesOn a a.
Proof. split; auto. Qed.

Lemma carriesOn_better (a0 a b : Animal) :
  carriesOn a0 a -> betterOf a = Some b -> carriesOn a0 b.
Proof.
  intros [Hn Hs] Hb. apply betterOf_Some in Hb.
  destruct Hb as (Nor & _ & Sp & Nm & _).
  split; [congruence|]. right.
  destruct Hs as [Hs|Hs]; [|congruence].
  rewrite (isNormal_not_monster a Nor) in Hs. discriminate.
Qed.

Lemma carriesOn_normal (a0 a b : Animal) :
  carriesOn a0 a -> normalOf a = Some b -> carriesOn a0 b.
Proof.
  intros [Hn Hs] Hb. apply normalOf_Some in Hb.
  destruct Hb as (Bet & _ & Sp & Nm & _).
  split; [congruence|]. right.
  destruct Hs as [Hs|Hs]; [|congruence].
  rewrite (proj2 (isBetter_not_normal a Bet)) in Hs. discriminate.
Qed.

(** X10.  After any sequence of commands from the empty manager, every
    animal of every container goes back to a create command of the
    sequence: it has the name given there, and the species of the type code
    given there unless it has become a monster.  No command renames an
    animal, changes its species or brings one in that was not created. *)
Theorem every_animal_was_created
        (cs : list Command) (r : ContainerRef) (a : Animal) :
  In a (deref (run emptyManager cs) r) ->
  exists type n cont d a0,
    In (CREATE type n cont d) cs /\
    makeAnimal type n d = Some a0 /\
    carriesOn a0 a.
Proof.
  intros Ha.
  assert (H : allP (fun a => exists type n cont d a0,
                        In (CREATE type n cont d) cs /\
                        makeAnimal type n d = Some a0 /\ carriesOn a0 a)
                   (run emptyManager cs)).
  { apply allP_run.
    - intros x y (type & n & cont & d & a0 & Hin & Hmk & Hc) Hb.
      exists type, n, cont, d, a0. eauto using carriesOn_better.
    - intros x y (type & n & cont & d & a0 & Hin & Hmk & Hc) Hn.
      exists type, n, cont, d, a0. eauto using carriesOn_normal.
    - intros x (type & n & cont & d & a0 & Hin & Hmk & Hn & _) _.
      exists type, n, cont, d, a0. repeat split; auto.
    - intros x (type & n & cont & d & a0 & Hin & Hmk & Hc) _.
      exists type, n, cont, d, a0. auto.
    - intros type n cont d x Hin Hx.
      exists type, n, cont, d, x. auto using carriesOn_refl.
    - apply emptyManager_everywhere. constructor. }
  specialize (H r). cbn beta in H. rewrite Forall_forall in H. auto.
Qed.

Lemma every_animal_was_created_witness :
  let cs := [CREATE "BF" "Nemo" "Aquarium" 2;
             APPLY_SUBSTANCE "Aquarium" "BF" 0] in
  In (mkAnimal Monster "Nemo" 1) (deref (run emptyManager cs) RefFreedom) /\
  exists type n cont d a0,
    In (CREATE type n cont d) cs /\
    makeAnimal type n d = Some a0 /\
    carriesOn a0 (mkAnimal Monster "Nemo" 1).
Proof.
  split; [simpl; left; reflexivity|].
  apply (every_animal_was_created
           [CREATE "BF" "Nemo" "Aquarium" 2; APPLY_SUBSTANCE "Aquarium" "BF" 0]
           RefFreedom).
  simpl. left. reflexivity.
Defined.

(** ** Ages that never overflow *)

(** X11.  When every create command of a sequence gives between 0 and
    1073741823 days, every age after the sequence lies between 0 and
    [INT_MAX - 1], and a better animal's age is at most 1073741823: the
    increment of a period, the halving and the doubling never leave the
    range of [int]. *)
Theorem ages_never_overflow (cs : list Command) :
  (forall type n cont d,
      In (CREATE type n cont d) cs -> 0 <= d <= 1073741823) ->
  forall r a,
    In a (deref (run emptyManager cs) r) ->
    0 <= daysLived a < INT_MAX /\
    (isBetter a = true -> daysLived a <= 1073741823) /\
    wrap (daysLived a + 1) = daysLived a + 1 /\
    (isBetter a = true -> wrap (daysLived a * 2) = daysLived a * 2).
Proof.
  intros Hc r a Ha.
  assert (H : allP (fun a => 0 <= daysLived a < INT_MAX /\
                             (isBetter a = true -> daysLived a <= 1073741823))
                   (run emptyManager cs)).
  { apply allP_run.
    - intros x y [Hx _] Hb. apply betterOf_Some in Hb.
      destruct Hb as (_ & _ & _ & _ & Dy).
      destruct (halved_age (daysLived x) Hx) as [Q1 Q2].
      rewrite Q1 in Dy. rewrite Dy. unfold INT_MAX in *.
      destruct (Z.even (daysLived x)); lia.
    - intros x y [Hx Hb] Hn. apply normalOf_Some in Hn.
      destruct Hn as (Bx & Ny & _ & _ & Dy). specialize (Hb Bx).
      rewrite wrap_id in Dy by (unfold INT_MAX; lia).
      split; [unfold INT_MAX; lia|]. intros By.
      unfold isNormal, isBetter in *. destruct (class y); discriminate.
    - intros x _ _. cbn. unfold INT_MAX. split; [lia|discriminate].
    - intros x [Hx Hb] Hl. unfold incrementDay in *.
      unfold pastLimit, isMonster in Hl.
      cbn [setDaysLived daysLived class] in *.
      rewrite wrap_id in * by (unfold INT_MAX in *; lia).
      unfold INT_MAX in *.
      destruct (class x); rewrite Z.gtb_ltb in Hl; apply Z.ltb_ge in Hl;
        (split; [lia|intros _; lia]).
    - intros type n cont d x Hin Hx. apply makeAnimal_Some in Hx.
      destruct Hx as (_ & _ & -> & _). specialize (Hc _ _ _ _ Hin).
      unfold INT_MAX. split; [lia|intros _; lia].
    - apply emptyManager_everywhere. constructor. }
  specialize (H r). cbn beta in H. rewrite Forall_forall in H.
  destruct (H a Ha) as [R B]. split; [exact R|]. split; [exact B|].
  split.
  - apply wrap_id. unfold INT_MAX in *. lia.
  - intros Hb. specialize (B Hb). apply wrap_id. unfold INT_MAX. lia.
Qed.

Lemma ages_never_overflow_witness :
  let cs := [CREATE "BM" "Jerry" "Cage" 1073741823;
             REMOVE_SUBSTANCE "Cage" "BM" 0] in
  In (mkAnimal Mouse "Jerry" 2147483646)
     (deref (run emptyManager cs) RefCageMouse) /\
  0 <= 2147483646 < INT_MAX.
Proof.
  split; [vm_compute; left; reflexivity|].
  apply (ages_never_overflow
           [CREATE "BM" "Jerry" "Cage" 1073741823;
            REMOVE_SUBSTANCE "Cage" "BM" 0])
    with (r := RefCageMouse) (a := mkAnimal Mouse "Jerry" 2147483646).
  - intros type n cont d [H|[H|[]]]; [|discriminate].
    injection H as _ _ _ <-. lia.
  - vm_compute. left. reflexivity.
Defined.

(** ** Counting animals *)

Lemma guard_false_in_range (l : ContainerBase.t) (idx : Z) :
  (idx <? 0) || (idx >=? ContainerBase.size l) = false ->
  0 <= idx < ContainerBase.size l.
Proof.
  destruct (Z.ltb_spec idx 0), (Z.geb_spec idx (ContainerBase.size l));
    cbn; intros G; try discriminate; lia.
Qed.

Lemma population_addTo (m : Manager) (r : ContainerRef) (a : Animal) :
  population (addTo m r a) = S (population m).
Proof.
  unfold addTo.
  pose proof (population_assign m r (ContainerBase.add (deref m r) a)) as H.
  rewrite size_add in H. lia.
Qed.

Lemma population_removed (m : Manager) (r : ContainerRef) (idx : Z) :
  0 <= idx < ContainerBase.size (deref m r) ->
  S (population
       (assign m r (snd (ContainerBase.removeByIndex (deref m r) idx))))
  = population m.
Proof.
  intros R.
  pose proof (population_assign
                m r (snd (ContainerBase.removeByIndex (deref m r) idx))) as H.
  pose proof (removeByIndex_length _ _ R). lia.
Qed.

Lemma population_emptied (m : Manager) (r : ContainerRef) :
  (population (assign m r []) + List.length (deref m r) = population m)%nat.
Proof.
  pose proof (population_assign m r []) as H. cbn [List.length] in H. lia.
Qed.

Lemma incrementDays_accounts (l : ContainerBase.t) :
  (List.length (fst (ContainerBase.incrementDays l))
   + List.length (snd (ContainerBase.incrementDays l))
   = List.length l)%nat.
Proof.
  rewrite OperationFacts.incrementDays_spec. cbn [fst snd].
  rewrite ContainerFacts.update_length, length_map.
  rewrite <- (length_map incrementDay l).
  induction (map incrementDay l) as [|a k IH]; [reflexivity|].
  cbn [filter]. destruct (pastLimit a); cbn [negb List.length]; lia.
Qed.

Lemma doPeriod_accounts (m : Manager) :
  (population (fst (doPeriod m)) + List.length (snd (doPeriod m))
   = population m)%nat.
Proof.
  unfold population. rewrite doPeriod_output.
  unfold periodOrder. cbn [map list_sum flat_map].
  rewrite !doPeriod_deref, !length_app.
  pose proof (incrementDays_accounts (deref m RefCageBird)).
  pose proof (incrementDays_accounts (deref m RefCageBetterBird)).
  pose proof (incrementDays_accounts (deref m RefCageMouse)).
  pose proof (incrementDays_accounts (deref m RefCageBetterMouse)).
  pose proof (incrementDays_accounts (deref m RefAquariumFish)).
  pose proof (incrementDays_accounts (deref m RefAquariumBetterFish)).
  pose proof (incrementDays_accounts (deref m RefAquariumMouse)).
  pose proof (incrementDays_accounts (deref m RefAquariumBetterMouse)).
  pose proof (incrementDays_accounts (deref m RefFreedom)).
  unfold list_sum. cbn [List.length fold_right]. lia.
Qed.

(** X12.  Whatever the manager holds, a command leaves it with at most one
    animal more than before, and a command other than a create with no more
    animals than before: nothing but a create brings an animal in. *)
Theorem only_create_adds_animals (m : Manager) (c : Command) :
  (population (fst (exec m c)) <= S (population m))%nat /\
  (isCreate c = false ->
   (population (fst (exec m c)) <= population m)%nat).
Proof.
  assert (Rem : forall r idx,
             (idx <? 0) || (idx >=? ContainerBase.size (deref m r)) = false ->
             S (population
                  (assign m r
                     (snd (ContainerBase.removeByIndex (deref m r) idx))))
             = population m).
  { intros r idx G. apply population_removed, guard_false_in_range, G. }
  destruct c; cbn [exec isCreate].
  - split; [|discriminate].
    unfold handleCreate. split_handler; rewrite ?population_addTo; lia.
  - cbn. split; intros; lia.
  - assert (H : (population (fst (handleApplySubstance m container type pos))
                 <= population m)%nat).
    { unfold handleApplySubstance, handleApplySubstanceFreedom.
      unfold ContainerBase.clear.
      split_handler; rewrite ?population_addTo; try lia;
        match goal with
        | G : (_ <? 0) || _ = false |- _ => pose proof (Rem _ _ G)
        end; try lia.
      match goal with
      | |- context [assign ?m1 ?r []] =>
          pose proof (population_emptied m1 r)
      end. lia. }
    split; intros; lia.
  - cbn. split; intros; lia.
  - assert (H : (population (fst (handleRemoveSubstance m container type pos))
                 <= population m)%nat).
    { unfold handleRemoveSubstance, handleRemoveSubstanceFreedom.
      split_handler; rewrite ?population_addTo; try lia;
        match goal with
        | G : (_ <? 0) || _ = false |- _ => pose proof (Rem _ _ G)
        end; lia. }
    split; intros; lia.
  - cbn. split; intros; lia.
  - assert (H : (population (fst (handleAttack m container type p1 p2))
                 <= population m)%nat).
    { unfold handleAttack, handleAttackFreedom.
      split_handler; try lia.
      match goal with
      | G : _ || _ || _ || _ || _ = false |- _ =>
          apply orb_false_iff in G; destruct G as [G _];
          apply orb_false_iff in G; destruct G as [G1 G2];
          apply orb_false_iff in G1; destruct G1 as [_ G1]
      end.
      pose proof (Rem c p2 (proj2 (orb_false_iff _ _) (conj G1 G2))). lia. }
    split; intros; lia.
  - unfold handleTalkFreedom. split_handler; split; intros; lia.
  - unfold handleTalk, handleTalkFreedom. split_handler; split; intros; lia.
  - pose proof (doPeriod_accounts m). split; intros; lia.
Qed.

Lemma only_create_adds_animals_witness :
  let m := run emptyManager [CREATE "B" "Iago" "Cage" 3;
                             CREATE "B" "Zazu" "Cage" 4] in
  isCreate (ATTACK "Cage" "B" 0 1) = false /\
  (population (fst (exec m (ATTACK "Cage" "B" 0 1))) <= population m)%nat.
Proof.
  split; [reflexivity|].
  apply (proj2 (only_create_adds_animals
                  (run emptyManager [CREATE "B" "Iago" "Cage" 3;
                                     CREATE "B" "Zazu" "Cage" 4])
                  (ATTACK "Cage" "B" 0 1))).
  reflexivity.
Defined.

Lemma deathReports_are_departures (l : list Animal) :
  filter isDeparture (map deathReport l) = map deathReport l.
Proof. induction l as [|a l IH]; [reflexivity|]. cbn. now rewrite IH. Qed.

Lemma doPeriod_lines_are_departures (m : Manager) :
  filter isDeparture (snd (doPeriod m)) = snd (doPeriod m).
Proof.
  rewrite doPeriod_output. unfold periodOrder. cbn [flat_map].
  rewrite !filter_app, !OperationFacts.incrementDays_spec. cbn [snd filter].
  now rewrite !deathReports_are_departures.
Qed.

(** The ways [handleApplySubstance] can go. *)
Lemma handleApplySubstance_cases
      (m : Manager) (cont type : string) (pos : Z) :
  handleApplySubstance m cont type pos = (m, [CannotApplyInFreedom]) \/
  handleApplySubstance m cont type pos = (m, [AnimalNotFound]) \/
  (cont <> "Freedom"%string /\
   exists c a,
     pickContainer cont type = Some c /\
     ContainerBase.get (deref m c) pos = Some a /\
     (isNormal a = true \/ isBetter a = true)).
Proof.
  unfold handleApplySubstance at 1 2.
  destruct (String.eqb_spec cont "Freedom") as [E|NF]; [now left|].
  destruct (pickContainer cont type) as [c|] eqn:Hc; [|now right; left].
  destruct ((pos <? 0) || (pos >=? ContainerBase.size (deref m c)));
    [now right; left|].
  destruct (ContainerBase.get (deref m c) pos) as [a|] eqn:Ha;
    [|now right; left].
  destruct (isMonster a) eqn:Hm; [now right; left|].
  right. right. split; [exact NF|]. exists c, a.
  split; [reflexivity|]. split; [exact Ha|].
  revert Hm. unfold isMonster, isNormal, isBetter.
  destruct (class a); intros Hm; try discriminate Hm;
    ((left; reflexivity) || (right; reflexivity)).
Qed.

(** The ways [handleRemoveSubstance] can go. *)
Lemma handleRemoveSubstance_cases
      (m : Manager) (cont type : string) (pos : Z) :
  (exists e, handleRemoveSubstance m cont type pos = (m, [e]) /\
             isRejection e = true) \/
  (cont <> "Freedom"%string /\
   exists c a,
     pickContainer cont type = Some c /\
     ContainerBase.get (deref m c) pos = Some a /\
     isBetter a = true).
Proof.
  unfold handleRemoveSubstance, handleRemoveSubstanceFreedom.
  destruct (String.eqb_spec cont "Freedom") as [E|NF];
    [left; eexists; split; reflexivity|].
  destruct (pickContainer cont type) as [c|] eqn:Hc;
    [|left; eexists; split; reflexivity].
  destruct ((pos <? 0) || (pos >=? ContainerBase.size (deref m c)));
    [left; eexists; split; reflexivity|].
  destruct (ContainerBase.get (deref m c) pos) as [a|] eqn:Ha;
    [|left; eexists; split; reflexivity].
  destruct (isBetter a) eqn:Hb; [|left; eexists; split; reflexivity].
  right. split; [exact NF|]. exists c, a.
  split; [reflexivity|]. split; [exact Ha|exact Hb].
Qed.

(** X13.  In any state the commands can reach, a command other than a
    create loses exactly as many animals as it prints death and attack
    lines: no animal leaves the manager unreported, neither in a period nor
    in a substance command nor in an attack. *)
Theorem every_departure_is_reported (cs : list Command) (c : Command) :
  let m := run emptyManager cs in
  isCreate c = false ->
  (population (fst (exec m c))
   + List.length (filter isDeparture (snd (exec m c)))
   = population m)%nat.
Proof.
  intros m Hc.
  pose proof (run_wellTyped cs) as T. fold m in T. clearbody m.
  assert (Adm : forall r idx a,
             ContainerBase.get (deref m r) idx = Some a -> admits r a).
  { intros r idx a Ha. specialize (T r). cbn beta in T.
    rewrite Forall_forall in T. eapply T, OperationFacts.get_In, Ha. }
  destruct c; cbn [exec isCreate] in *; try discriminate.
  - cbn. lia.
  - destruct (handleApplySubstance_cases m container type pos)
      as [-> | [-> | (NF & c & a & Hp & Ha & [Hn|Hb])]];
      [cbn; lia | cbn; lia | |].
    + destruct (better_container_exists container type c a NF Hp
                  (Adm _ _ _ Ha) Hn)
        as (better & cB & Hbt & HcB & _).
      rewrite (handleApplySubstance_normal m container type pos c cB a better)
        by assumption.
      cbn [fst snd filter List.length]. rewrite population_addTo.
      pose proof (proj1 (OperationFacts.get_Some _ _ _) Ha) as [R _].
      rewrite <- (OperationFacts.removeByIndex_in_range _ _ R).
      pose proof (population_removed m c pos R). lia.
    + rewrite (handleApplySubstance_better m container type pos c a)
        by assumption.
      cbn [fst snd]. rewrite deathReports_are_departures, length_map.
      rewrite population_addTo, ContainerFacts.update_length.
      pose proof (proj1 (OperationFacts.get_Some _ _ _) Ha) as [R _].
      pose proof (population_emptied m c).
      assert (S (List.length (erase (Z.to_nat pos) (deref m c)))
              = List.length (deref m c))
        by (apply erase_length; unfold ContainerBase.size in R; lia).
      lia.
  - cbn. lia.
  - destruct (handleRemoveSubstance_cases m container type pos)
      as [(e & -> & He) | (NF & c & a & Hp & Ha & Hb)].
    + cbn [fst snd filter]. destruct e; try discriminate; cbn; lia.
    + destruct (normal_container_exists container type c a NF Hp
                  (Adm _ _ _ Ha) Hb)
        as (normal & cN & Hn & HcN & _).
      rewrite (handleRemoveSubstance_better m container type pos c cN a normal)
        by assumption.
      cbn [fst snd filter List.length]. rewrite population_addTo.
      pose proof (proj1 (OperationFacts.get_Some _ _ _) Ha) as [R _].
      rewrite <- (OperationFacts.removeByIndex_in_range _ _ R).
      pose proof (population_removed m c pos R). lia.
  - cbn. lia.
  - unfold handleAttack, handleAttackFreedom.
    split_handler; cbn [filter isDeparture List.length]; try lia.
    match goal with
    | G : _ || _ || _ || _ || _ = false |- _ =>
        apply orb_false_iff in G; destruct G as [G _];
        apply orb_false_iff in G; destruct G as [G1 G2];
        apply orb_false_iff in G1; destruct G1 as [_ G1]
    end.
    pose proof (population_removed
                  m c p2 (guard_false_in_range _ _
                            (proj2 (orb_false_iff _ _) (conj G1 G2)))).
    lia.
  - unfold handleTalkFreedom. split_handler; cbn; lia.
  - unfold handleTalk, handleTalkFreedom. split_handler; cbn; lia.
  - rewrite doPeriod_lines_are_departures. apply doPeriod_accounts.
Qed.

Lemma every_departure_is_reported_witness :
  let cs := [CREATE "BF" "Bruce" "Aquarium" 1;
             CREATE "BF" "Nemo" "Aquarium" 2] in
  let m := run emptyManager cs in
  let c := APPLY_SUBSTANCE "Aquarium" "BF" 1 in
  isCreate c = false /\
  (population (fst (exec m c))
   + List.length (filter isDeparture (snd (exec m c)))
   = population m)%nat.
Proof.
  split; [reflexivity|].
  apply (every_departure_is_reported
           [CREATE "BF" "Bruce" "Aquarium" 1; CREATE "BF" "Nemo" "Aquarium" 2]
           (APPLY_SUBSTANCE "Aquarium" "BF" 1)).
  reflexivity.
Defined.

(** ** Where a new animal stands *)

Lemma SortAnimals_before_trans (a x y : Animal) :
  SortAnimals a x = true -> ordered x y -> SortAnimals a y = true.
Proof.
  intros Hax Hxy. destruct (SortAnimals a y) eqn:E; [reflexivity|].
  apply SortAnimals_false_ordered in E.
  pose proof (ordered_trans _ _ _ Hxy E) as Hxa.
  apply SortAnimals_false_ordered in Hxa. congruence.
Qed.

Lemma filter_all (A : Type) (f : A -> bool) (l : list A) :
  Forall (fun x => f x = true) l -> filter f l = l.
Proof.
  induction 1 as [|x l Hx _ IH]; [reflexivity|].
  cbn. now rewrite Hx, IH.
Qed.

Lemma filter_none (A : Type) (f : A -> bool) (l : list A) :
  Forall (fun x => f x = true) l -> filter (fun x => negb (f x)) l = [].
Proof.
  induction 1 as [|x l Hx _ IH]; [reflexivity|].
  cbn. now rewrite Hx, IH.
Qed.

Lemma add_sorted_split (l : ContainerBase.t) (a : Animal) :
  sortedByDaysThenName l ->
  ContainerBase.add l a
  = filter (fun x => negb (SortAnimals a x)) l
      ++ a :: filter (SortAnimals a) l.
Proof.
  unfold ContainerBase.add, ContainerBase.update.
  induction 1 as [|x l S IH F]; [reflexivity|].
  cbn [app stable_sort filter]. rewrite IH.
  destruct (SortAnimals a x) eqn:Hax; cbn [negb].
  - assert (After : Forall (fun y => SortAnimals a y = true) l).
    { eapply Forall_impl; [|exact F]. intros y Hxy.
      eapply SortAnimals_before_trans; eassumption. }
    rewrite (filter_all _ _ _ After), (filter_none _ _ _ After).
    cbn [app insert_sorted]. rewrite Hax. f_equal.
    destruct l as [|y l]; [reflexivity|]. cbn [insert_sorted].
    inversion F as [|? ? Hxy _]; subst.
    apply SortAnimals_false_ordered in Hxy. now rewrite Hxy.
  - destruct (filter (fun y => negb (SortAnimals a y)) l) as [|y pre] eqn:E.
    + cbn [app insert_sorted]. now rewrite Hax.
    + cbn [app insert_sorted].
      assert (Hy : In y l).
      { eapply (proj1 (filter_In _ _ _)). rewrite E. now left. }
      rewrite Forall_forall in F. specialize (F y Hy).
      apply SortAnimals_false_ordered in F. now rewrite F.
Qed.

(** X14.  Added to a sorted container, an animal comes to stand directly
    behind the animals that do not come after it (fewer days, or the same
    days and a name not greater: so behind its equals) and in front of all
    others; both groups keep their order, and the index of the new animal
    is the size of the first group. *)
Theorem add_stands_behind_its_equals (l : ContainerBase.t) (a : Animal) :
  sortedByDaysThenName l ->
  let before := filter (fun x => negb (SortAnimals a x)) l in
  let after := filter (SortAnimals a) l in
  l = before ++ after /\
  ContainerBase.add l a = before ++ a :: after /\
  ContainerBase.get (ContainerBase.add l a) (Z.of_nat (List.length before))
  = Some a.
Proof.
  intros S before after.
  assert (E : ContainerBase.add l a = before ++ a :: after)
    by now apply add_sorted_split.
  split; [|split; [exact E|]].
  - subst before after. clear E.
    induction S as [|x l S IH F]; [reflexivity|].
    cbn [filter]. destruct (SortAnimals a x) eqn:Hax; cbn [negb app].
    + assert (After : Forall (fun y => SortAnimals a y = true) l).
      { eapply Forall_impl; [|exact F]. intros y Hxy.
        eapply SortAnimals_before_trans; eassumption. }
      now rewrite (filter_all _ _ _ After), (filter_none _ _ _ After).
    + now rewrite <- IH.
  - rewrite E. apply OperationFacts.get_Some. rewrite Nat2Z.id.
    unfold ContainerBase.size. rewrite length_app. cbn [List.length].
    split; [lia|].
    rewrite nth_error_app2 by lia. now rewrite Nat.sub_diag.
Qed.

Lemma add_stands_behind_its_equals_witness :
  let l := [mkAnimal Bird "Iago" 3; mkAnimal Bird "Zazu" 3;
            mkAnimal Bird "Abu" 5] in
  sortedByDaysThenName l /\
  ContainerBase.get (ContainerBase.add l (mkAnimal Bird "Zazu" 3)) 2
  = Some (mkAnimal Bird "Zazu" 3).
Proof.
  assert (S : sortedByDaysThenName
                [mkAnimal Bird "Iago" 3; mkAnimal Bird "Zazu" 3;
                 mkAnimal Bird "Abu" 5]).
  { unfold sortedByDaysThenName, ordered.
    repeat constructor; cbn; (left; lia) || (right; split; reflexivity). }
  split; [exact S|].
  exact (proj2 (proj2 (add_stands_behind_its_equals _ _ S))).
Defined.

(** ** The round trip at even ages *)

Lemma sameKey_same_class (x y : Animal) :
  class x = class y -> sameKey (daysLived y) (name y) x = true -> x = y.
Proof.
  destruct x as [kx nx dx], y as [ky ny dy]. unfold sameKey. cbn.
  intros -> H. apply andb_true_iff in H. destruct H as [Hd Hn].
  apply Z.eqb_eq in Hd. apply String.eqb_eq in Hn. congruence.
Qed.

Lemma cons_snoc_same (A : Type) (a : A) (l : list A) :
  Forall (eq a) l -> a :: l = l ++ [a].
Proof.
  induction 1 as [|x l <- _ IH]; [reflexivity|]. cbn. now rewrite <- IH.
Qed.

Lemma filter_sameKey_all_equal (l : ContainerBase.t) (a : Animal) :
  (forall x, In x l -> class x = class a) ->
  Forall (eq a) (filter (sameKey (daysLived a) (name a)) l).
Proof.
  intros Hl. apply Forall_forall. intros x Hx. apply filter_In in Hx.
  destruct Hx as [Hx Hk]. symmetry. apply sameKey_same_class; auto.
Qed.

Lemma sameKey_determines (d : Z) (n : string) (a x : Animal) :
  sameKey d n a = true -> sameKey d n x = sameKey (daysLived a) (name a) x.
Proof.
  unfold sameKey. rewrite andb_true_iff, Z.eqb_eq, String.eqb_eq.
  now intros [-> ->].
Qed.

(** Taking an animal out of a sorted container of one class and adding it
    again gives the container back. *)
Lemma add_erase_restores (l : ContainerBase.t) (i : nat) (a : Animal) :
  sortedByDaysThenName l ->
  (forall x, In x l -> class x = class a) ->
  nth_error l i = Some a ->
  ContainerBase.add (erase i l) a = l.
Proof.
  intros S Hl Ha. symmetry. unfold ContainerBase.add.
  apply ContainerFacts.update_unique; [exact S|]. intros d n.
  destruct (nth_error_split l i Ha) as (l1 & l2 & -> & <-).
  rewrite erase_app, !filter_app. cbn [filter].
  destruct (sameKey d n a) eqn:K; [|now rewrite app_nil_r].
  rewrite <- app_assoc. f_equal. apply cons_snoc_same.
  rewrite (filter_ext _ _ (fun x => sameKey_determines d n a x K)).
  apply filter_sameKey_all_equal. intros x Hx. apply Hl.
  rewrite in_app_iff. right. now right.
Qed.

(** Adding an animal to a sorted container of its class and taking it, or
    an equal of it, out again gives the container back. *)
Lemma erase_add_restores (l : ContainerBase.t) (j : nat) (b : Animal) :
  sortedByDaysThenName l ->
  (forall x, In x l -> class x = class b) ->
  nth_error (ContainerBase.add l b) j = Some b ->
  erase j (ContainerBase.add l b) = l.
Proof.
  intros S Hl Hj.
  apply ContainerFacts.sorted_stable_unique;
    [apply erase_sorted, ContainerFacts.update_sorted|exact S|].
  intros d n.
  pose proof (ContainerFacts.update_stable d n (l ++ [b])) as St.
  fold (ContainerBase.add l b) in St.
  assert (Cl : forall x, In x (ContainerBase.add l b) -> class x = class b).
  { intros x Hx. apply In_add in Hx. destruct Hx as [Hx| ->]; auto. }
  destruct (nth_error_split _ j Hj) as (l1 & l2 & E & <-).
  rewrite E in *. rewrite erase_app.
  rewrite !filter_app in *. cbn [filter] in St.
  destruct (sameKey d n b) eqn:K.
  - assert (F : Forall (eq b) (filter (sameKey d n) l2)).
    { rewrite (filter_ext _ _ (fun x => sameKey_determines d n b x K)).
      apply filter_sameKey_all_equal. intros x Hx. apply Cl.
      rewrite in_app_iff. right. now right. }
    rewrite (cons_snoc_same _ _ _ F), app_assoc in St.
    now apply app_inv_tail in St.
  - now rewrite app_nil_r in St.
Qed.

Lemma animal_eta (a : Animal) :
  mkAnimal (class a) (name a) (daysLived a) = a.
Proof. now destruct a. Qed.

(** X15.  In any state the commands can reach, for a normal animal of an
    even age (not negative, below [INT_MAX]) at a valid index of a cage or
    aquarium container, applying substance and then removing it from the
    better animal that results, wherever it stands, gives back the manager
    exactly as it was: every container holds the same animals in the same
    order. *)
Theorem round_trip_restores_manager
        (cs : list Command) (cont type : string) (pos : Z)
        (c : ContainerRef) (a : Animal) :
  let m := run emptyManager cs in
  cont <> "Freedom"%string ->
  pickContainer cont type = Some c ->
  ContainerBase.get (deref m c) pos = Some a ->
  isNormal a = true ->
  0 <= daysLived a < INT_MAX ->
  Z.even (daysLived a) = true ->
  let m1 := fst (handleApplySubstance m cont type pos) in
  exists better cB,
    betterOf a = Some better /\
    pickContainer cont (getTypeCode better) = Some cB /\
    (exists j, ContainerBase.get (deref m1 cB) j = Some better) /\
    forall j,
      ContainerBase.get (deref m1 cB) j = Some better ->
      handleRemoveSubstance m1 cont (getTypeCode better) j = (m, []).
Proof.
  intros m NF Hc Ha Hn Hage Hev m1.
  pose proof (run_wellTyped cs) as T. pose proof (run_allSorted cs) as Srt.
  fold m in T, Srt. subst m1. clearbody m.
  assert (Cls : forall r k x,
             elementClass r = Some k -> In x (deref m r) -> class x = k).
  { intros r k x Hk Hx. specialize (T r). cbn beta in T.
    rewrite Forall_forall in T. specialize (T x Hx).
    unfold admits in T. now rewrite Hk in T. }
  assert (Adm : admits c a).
  { specialize (T c). cbn beta in T. rewrite Forall_forall in T.
    eapply T, OperationFacts.get_In, Ha. }
  destruct (better_container_exists cont type c a NF Hc Adm Hn)
    as (better & cB & Hb & HcB & Hel & _ & NE & Hback & HcN).
  exists better, cB. split; [exact Hb|]. split; [exact HcB|].
  destruct (betterOf_Some a better Hb) as (_ & Bb & _ & _ & Dy).
  destruct (halved_age (daysLived a) Hage) as [Q1 Q2].
  rewrite Q1 in Dy. rewrite Hev in Q2.
  assert (Hnormal : normalOf better = Some a).
  { rewrite Hback. rewrite Dy, Z.mul_comm, Q2, wrap_id;
      [now rewrite animal_eta|].
    unfold INT_MAX in *. lia. }
  rewrite (handleApplySubstance_normal m cont type pos c cB a better)
    by assumption.
  cbn [fst].
  rewrite (ContainerFacts.update_fixed _ (erase_sorted _ _ _ (Srt c))).
  set (m0 := assign m c (erase (Z.to_nat pos) (deref m c))).
  assert (EB : deref (addTo m0 cB better) cB
               = ContainerBase.add (deref m cB) better).
  { unfold addTo. rewrite deref_assign_same. unfold m0.
    now rewrite deref_assign_other by congruence. }
  split.
  - apply OperationFacts.In_get. rewrite EB. apply OperationFacts.add_In.
  - intros j Hj.
    rewrite (handleRemoveSubstance_better
               (addTo m0 cB better) cont (getTypeCode better) j cB c
               better a) by assumption.
    f_equal. apply manager_ext. intros r.
    assert (SB : sortedByDaysThenName (deref (addTo m0 cB better) cB))
      by (rewrite EB; apply ContainerFacts.update_sorted).
    rewrite (ContainerFacts.update_fixed _ (erase_sorted _ _ _ SB)).
    assert (RB : erase (Z.to_nat j) (deref (addTo m0 cB better) cB)
                 = deref m cB).
    { rewrite EB in *. apply erase_add_restores; [apply Srt| |].
      - intros x Hx. apply (Cls cB _ x Hel Hx).
      - now apply OperationFacts.get_Some in Hj. }
    rewrite RB. unfold addTo at 1.
    destruct (ContainerRef_eq_dec c r) as [<-|NEc].
    + rewrite deref_assign_same.
      rewrite (deref_assign_other _ cB c) by exact NE.
      unfold addTo. rewrite (deref_assign_other _ cB c) by exact NE.
      unfold m0. rewrite deref_assign_same.
      apply add_erase_restores; [apply Srt| |].
      * intros x Hx.
        unfold admits in Adm. destruct (elementClass c) as [k|] eqn:Hk.
        -- rewrite Adm. apply (Cls c k x Hk Hx).
        -- apply pickContainer_Some in Hc. destruct c; try discriminate.
           contradiction.
      * now apply OperationFacts.get_Some in Ha.
    + rewrite deref_assign_other by exact NEc.
      destruct (ContainerRef_eq_dec cB r) as [<-|NEb].
      * apply deref_assign_same.
      * rewrite deref_assign_other by exact NEb.
        unfold addTo. rewrite deref_assign_other by exact NEb.
        unfold m0. now rewrite deref_assign_other by exact NEc.
Qed.

Lemma round_trip_restores_manager_witness :
  let m := run emptyManager [CREATE "B" "Iago" "Cage" 8;
                             CREATE "B" "Zazu" "Cage" 8] in
  ContainerBase.get (deref m RefCageBird) 0 = Some (mkAnimal Bird "Iago" 8) /\
  Z.even 8 = true /\
  exists better cB,
    betterOf (mkAnimal Bird "Iago" 8) = Some better /\
    pickContainer "Cage" (getTypeCode better) = Some cB /\
    forall j,
      ContainerBase.get
        (deref (fst (handleApplySubstance m "Cage" "B" 0)) cB) j
      = Some better ->
      handleRemoveSubstance (fst (handleApplySubstance m "Cage" "B" 0))
                            "Cage" (getTypeCode better) j
      = (m, []).
Proof.
  split; [reflexivity|]. split; [reflexivity|].
  destruct (round_trip_restores_manager
              [CREATE "B" "Iago" "Cage" 8; CREATE "B" "Zazu" "Cage" 8]
              "Cage" "B" 0 RefCageBird (mkAnimal Bird "Iago" 8))
    as (better & cB & Hb & HcB & _ & Hback).
  - discriminate.
  - reflexivity.
  - reflexivity.
  - reflexivity.
  - simpl. unfold INT_MAX. lia.
  - reflexivity.
  - exists better, cB. split; [exact Hb|]. split; [exact HcB|exact Hback].
Defined.

(** * main *)

(** ** The states main reaches *)

Lemma mainLoop_runs (lines : list string) :
  forall C m,
  exists cs,
    match mainLoop C lines m with
    | Returned m' out => m' = run m cs /\ out = output m cs
    | Aborted m' => m' = run m cs
    end.
Proof.
  induction lines as [|line rest IH]; intros C m.
  - exists []. cbn [mainLoop]. now destruct (C =? 0).
  - cbn [mainLoop]. destruct (C =? 0); [now exists []|]. cbn zeta.
    destruct line as [|ch line']; [apply IH|].
    destruct (dispatch (tokens (String ch line'))) as [| |c].
    + apply IH.
    + now exists [].
    + destruct (IH (wrap (C - 1)) (fst (exec m c))) as (cs & H).
      exists (c :: cs).
      destruct (mainLoop (wrap (C - 1)) rest (fst (exec m c)))
        as [m' out|m'].
      * destruct H as [-> ->]. split; reflexivity.
      * exact H.
Qed.

(** X16.  Whatever the count and the lines given to [main], the manager it
    ends with, or holds when [stoi] throws, is the one a sequence of handler
    calls produces from the empty manager; when [main] returns, the lines
    it has written are those of that sequence.  So every container of that
    manager is sorted and holds only animals of its declared class. *)
Theorem main_reaches_command_states (C : Z) (lines : list string) :
  exists cs,
    match mainLoop C lines emptyManager with
    | Returned m out =>
        m = run emptyManager cs /\ out = output emptyManager cs
    | Aborted m => m = run emptyManager cs
    end /\
    allSorted (finalManager (mainLoop C lines emptyManager)) /\
    wellTyped (finalManager (mainLoop C lines emptyManager)).
Proof.
  destruct (mainLoop_runs lines C emptyManager) as (cs & H).
  exists cs. split; [exact H|].
  assert (E : finalManager (mainLoop C lines emptyManager)
              = run emptyManager cs).
  { destruct (mainLoop C lines emptyManager); cbn; tauto. }
  rewrite E. split; [apply run_allSorted|apply run_wellTyped].
Qed.

(** ** The count *)

Lemma mainLoop_step (C : Z) (line : string) (rest : list string)
      (m : Manager) :
  C <> 0 ->
  mainLoop C (line :: rest) m =
  match line with
  | EmptyString => mainLoop (wrap (C - 1)) rest m
  | _ =>
      match dispatch (tokens line) with
      | Ignored => mainLoop (wrap (C - 1)) rest m
      | Thrown => Aborted m
      | Call c =>
          match mainLoop (wrap (C - 1)) rest (fst (exec m c)) with
          | Returned m' out => Returned m' (snd (exec m c) ++ out)
          | Aborted m' => Aborted m'
          end
      end
  end.
Proof.
  intros H. apply Z.eqb_neq in H. cbn [mainLoop]. now rewrite H.
Qed.

(** The loop goes the same way for two counts whose successors in the loop
    go the same way. *)
Lemma mainLoop_step_eq (C1 C2 : Z) (line : string) (rest1 rest2 : list string)
      (m : Manager) :
  C1 <> 0 -> C2 <> 0 ->
  (forall m', mainLoop (wrap (C1 - 1)) rest1 m'
              = mainLoop (wrap (C2 - 1)) rest2 m') ->
  mainLoop C1 (line :: rest1) m = mainLoop C2 (line :: rest2) m.
Proof.
  intros H1 H2 H. rewrite !mainLoop_step by assumption.
  destruct line; [apply H|].
  destruct (dispatch _); [apply H|reflexivity|]. now rewrite H.
Qed.

(** X17.  [main] handles no more lines than the count says, blank and
    ignored lines counted: with a count from 0 to [INT_MAX] only the first
    [C] lines matter.  A negative count stops nothing: as long as the
    decrement does not overflow, all lines are handled, as with a count
    equal to their number. *)
Theorem main_handles_at_most_C_lines :
  (forall (lines : list string) (C : Z) (m : Manager),
      0 <= C <= INT_MAX ->
      mainLoop C lines m = mainLoop C (firstn (Z.to_nat C) lines) m) /\
  (forall (lines : list string) (C : Z) (m : Manager),
      INT_MIN + Z.of_nat (List.length lines) <= C < 0 ->
      mainLoop C lines m = mainLoop (Z.of_nat (List.length lines)) lines m).
Proof.
  split.
  - induction lines as [|line rest IH]; intros C m HC.
    + now rewrite firstn_nil.
    + destruct (Z.eq_dec C 0) as [->|NZ]; [reflexivity|].
      replace (Z.to_nat C) with (S (Z.to_nat (C - 1))) by lia.
      cbn [firstn]. apply mainLoop_step_eq; try assumption.
      intros m'. rewrite wrap_id by (unfold INT_MAX in *; lia).
      apply IH. lia.
  - induction lines as [|line rest IH]; intros C m HC.
    + cbn [mainLoop]. now destruct (C =? 0).
    + cbn [List.length] in *. unfold INT_MIN in *.
      apply mainLoop_step_eq; try lia.
      intros m'. rewrite !wrap_id by (unfold INT_MAX; lia).
      replace (Z.of_nat (S (List.length rest)) - 1)
        with (Z.of_nat (List.length rest)) by lia.
      destruct rest as [|line' rest'].
      * cbn [mainLoop List.length]. now destruct (C - 1 =? 0).
      * apply IH. cbn [List.length] in *. lia.
Qed.

Lemma main_handles_at_most_C_lines_witness :
  (0 <= 1 <= INT_MAX /\
   mainLoop 1 ["CREATE M Jerry IN Cage 9"; "PERIOD"]%string emptyManager
   = mainLoop 1 (firstn (Z.to_nat 1)
                        ["CREATE M Jerry IN Cage 9"; "PERIOD"]%string)
              emptyManager) /\
  (INT_MIN + Z.of_nat (List.length ["PERIOD"; "PERIOD"]%string) <= -1 < 0 /\
   mainLoop (-1) ["PERIOD"; "PERIOD"]%string emptyManager
   = mainLoop (Z.of_nat (List.length ["PERIOD"; "PERIOD"]%string))
              ["PERIOD"; "PERIOD"]%string emptyManager).
Proof.
  split.
  - split; [unfold INT_MAX; lia|].
    apply (proj1 main_handles_at_most_C_lines). unfold INT_MAX. lia.
  - split; [unfold INT_MIN; cbn; lia|].
    apply (proj2 main_handles_at_most_C_lines). unfold INT_MIN. cbn. lia.
Defined.

(** ** Freedom in the command line *)

Lemma withIndex_Call (s : string) (k : Z -> Command) (c : Command) :
  withIndex s k = Call c -> exists pos, c = k pos.
Proof.
  unfold withIndex. destruct (stoi s) as [pos|]; [|discriminate].
  intros H. injection H as <-. eauto.
Qed.

Lemma withIndices_Call (s1 s2 : string) (k : Z -> Z -> Command) (c : Command) :
  withIndices s1 s2 k = Call c -> exists p1 p2, c = k p1 p2.
Proof.
  unfold withIndices.
  destruct (stoi s1) as [p1|]; [|discriminate].
  destruct (stoi s2) as [p2|]; [|discriminate].
  intros H. injection H as <-. eauto.
Qed.

(** X18.  A line whose first token is APPLY_SUBSTANCE, REMOVE_SUBSTANCE or
    ATTACK and whose second token is Freedom, if it leads to a call at all,
    leads to the refusal line of that command and no change, in its short
    form and with any number of further tokens. *)
Theorem freedom_is_refused_in_every_form
        (rest : list string) (m : Manager) (c : Command) :
  (dispatch ("APPLY_SUBSTANCE" :: "Freedom" :: rest)%string = Call c ->
   exec m c = (m, [CannotApplyInFreedom])) /\
  (dispatch ("REMOVE_SUBSTANCE" :: "Freedom" :: rest)%string = Call c ->
   exec m c = (m, [CannotRemoveInFreedom])) /\
  (dispatch ("ATTACK" :: "Freedom" :: rest)%string = Call c ->
   exec m c = (m, [CannotAttackInFreedom])).
Proof.
  unfold dispatch. cbn [String.eqb Ascii.eqb Bool.eqb tokenAt nth].
  repeat split; intros H;
    repeat match type of H with
           | (if ?b then _ else _) = _ => destruct b
           end;
    try discriminate;
    (apply withIndex_Call in H; destruct H as (pos & ->))
    || (apply withIndices_Call in H; destruct H as (p1 & p2 & ->));
    reflexivity.
Qed.

Lemma freedom_is_refused_in_every_form_witness :
  dispatch ["ATTACK"; "Freedom"; "0"; "1"; "2"]%string
  = Call (ATTACK "Freedom" "0" 1 2) /\
  exec emptyManager (ATTACK "Freedom" "0" 1 2)
  = (emptyManager, [CannotAttackInFreedom]).
Proof.
  split; [reflexivity|].
  apply (proj2 (proj2 (freedom_is_refused_in_every_form
                         ["0"; "1"; "2"]%string emptyManager
                         (ATTACK "Freedom" "0" 1 2)))).
  reflexivity.
Defined.

(** ** Tokens *)

Lemma string_app_nil_r (s : string) : (s ++ "")%string = s.
Proof. induction s as [|c s IH]; [reflexivity|]. cbn. now rewrite IH. Qed.

Lemma string_app_assoc (s1 s2 s3 : string) :
  ((s1 ++ s2) ++ s3)%string = (s1 ++ (s2 ++ s3))%string.
Proof. induction s1 as [|c s1 IH]; [reflexivity|]. cbn. now rewrite IH. Qed.

Lemma spaceFree_app (s1 s2 : string) :
  spaceFree (s1 ++ s2) = spaceFree s1 && spaceFree s2.
Proof.
  induction s1 as [|c s1 IH]; [reflexivity|].
  cbn. now rewrite IH, andb_assoc.
Qed.

Lemma tokensFrom_words (line w : string) :
  spaceFree w = true -> Forall isWord (tokensFrom line w).
Proof.
  revert w. induction line as [|c rest IH]; intros w Hw; cbn [tokensFrom].
  - destruct w; constructor; [|constructor]. split; [discriminate|exact Hw].
  - destruct (isspace c) eqn:Hc.
    + destruct w; [now apply IH|].
      constructor; [split; [discriminate|exact Hw]|now apply IH].
    + apply IH. rewrite spaceFree_app, Hw. cbn. now rewrite Hc.
Qed.

(** Reading on through a word. *)
Lemma tokensFrom_through_word (w' s w : string) :
  spaceFree w' = true ->
  tokensFrom (w' ++ s) w = tokensFrom s (w ++ w').
Proof.
  revert w. induction w' as [|c w' IH]; intros w Hw.
  - now rewrite string_app_nil_r.
  - cbn in Hw. apply andb_true_iff in Hw. destruct Hw as [Hc Hw].
    apply negb_true_iff in Hc. cbn [append tokensFrom]. rewrite Hc.
    rewrite (IH _ Hw), string_app_assoc. reflexivity.
Qed.

(** X19.  The tokens of a line are words: none is empty and none has white
    space in it, so [stoi] is only ever given a string that starts with
    what it is to parse.  And words joined by single blanks are read back as
    those words. *)
Theorem tokens_are_the_words :
  (forall line, Forall isWord (tokens line)) /\
  (forall ws, Forall isWord ws -> tokens (String.concat " " ws) = ws).
Proof.
  split.
  - intros line. now apply tokensFrom_words.
  - unfold tokens. induction 1 as [|x ws [Hx Sx] F IH]; [reflexivity|].
    destruct ws as [|y ws].
    + cbn [concat]. rewrite <- (string_app_nil_r x) at 1.
      rewrite (tokensFrom_through_word x _ _ Sx). cbn [append tokensFrom].
      destruct x; [contradiction|reflexivity].
    + change (concat " " (x :: y :: ws))
        with (x ++ " " ++ concat " " (y :: ws))%string.
      rewrite (tokensFrom_through_word x _ _ Sx).
      cbn [append tokensFrom]. rewrite IH.
      change (isspace " ") with true. cbn iota.
      destruct x; [contradiction|reflexivity].
Qed.

Lemma tokens_are_the_words_witness :
  Forall isWord ["TALK"; "Cage"; "M"; "0"]%string /\
  tokens (String.concat " " ["TALK"; "Cage"; "M"; "0"]%string)
  = ["TALK"; "Cage"; "M"; "0"]%string.
Proof.
  assert (F : Forall isWord ["TALK"; "Cage"; "M"; "0"]%string)
    by (repeat constructor; discriminate).
  split; [exact F|].
  exact (proj2 tokens_are_the_words _ F).
Defined.
